(** * HEASARC light-curve helpers: a shallow embedding of
      [light_curves/code/heasarc_functions.py]

    The Python module is a set of sequential wrappers around remote
    services and table libraries.  The embedding keeps the control flow
    of the source (loops, indexing, [try]/[except]) and threads the
    outside world explicitly:

    - the remote archive, the registry and the file system are an
      abstract [World] with one transition function per library call
      the source makes; a call may answer or raise;
    - Python exceptions are values of [exn]; a computation is a function
      from a state to either a returned value or a raised exception,
      both with the state reached;
    - the requests sent to the archive are recorded, in order, in a
      ghost log next to the world. *)

From Stdlib Require Import String Ascii List ZArith Bool Lia DecimalString.
From Stdlib Require Import Floats.PrimFloat.
Import ListNotations.

Set Warnings "-inexact-float".

Set Implicit Arguments.

(** ** Python values and exceptions *)

(** The exception classes the module can meet.  [OtherError] stands for
    any class not named here (network faults, service errors, ...). *)
Inductive exn : Type :=
| AttributeError
| KeyError
| IndexError
| TypeError
| ValueError
| OtherError (name : string).

Definition is_AttributeError (e : exn) : bool :=
  match e with AttributeError => true | _ => false end.

(** Scalars that travel through tables and records: floats, integers and
    strings. *)
Inductive value : Type :=
| VFloat (f : float)
| VInt (z : Z)
| VStr (s : string).

(** The float literal [0.1] of the source (the binary64 nearest to it). *)
Definition placeholder : float := 0.1%float.

(** ** Computations that may raise *)

Inductive result (S A : Type) : Type :=
| Return (a : A) (s : S)
| Raise (e : exn) (s : S).

Arguments Return {S A} a s.
Arguments Raise {S A} e s.

Definition M (S A : Type) : Type := S -> result S A.

Definition ret {S A} (a : A) : M S A := fun s => Return a s.

Definition raise {S A} (e : exn) : M S A := fun s => Raise e s.

Definition bind {S A B} (c : M S A) (k : A -> M S B) : M S B :=
  fun s => match c s with
           | Return a s' => k a s'
           | Raise e s' => Raise e s'
           end.

Declare Scope py_scope.
Delimit Scope py_scope with py.
Notation "x <- c ;; k" := (bind c (fun x => k))
  (at level 100, c at next level, right associativity) : py_scope.
Notation "c ;;; k" := (bind c (fun _ => k))
  (at level 100, right associativity) : py_scope.
Open Scope py_scope.

(** A pure step that either yields a value or raises. *)
Definition lift {S A} (r : exn + A) : M S A :=
  fun s => match r with inl e => Raise e s | inr a => Return a s end.

(** [try: c  except AttributeError: pass].  The handler runs in the state
    reached when the exception was raised: nothing is rolled back. *)
Definition try_except_AttributeError_pass {S} (c : M S unit) : M S unit :=
  fun s => match c s with
           | Return a s' => Return a s'
           | Raise e s' => if is_AttributeError e then Return tt s' else Raise e s'
           end.

(** [for a in l: body a], left to right; an exception leaves the loop. *)
Fixpoint for_each {S A} (body : A -> M S unit) (l : list A) : M S unit :=
  match l with
  | [] => ret tt
  | a :: l' => body a ;;; for_each body l'
  end.

(** ** Python sequences *)

(** [l[i]] for an integer [i]: negative indices count from the end, and
    an index outside [-len, len) raises [IndexError]. *)
Definition list_getitem {A} (l : list A) (i : Z) : exn + A :=
  let n := Z.of_nat (length l) in
  let j := if (i <? 0)%Z then (i + n)%Z else i in
  if ((0 <=? j) && (j <? n))%Z
  then match nth_error l (Z.to_nat j) with
       | Some a => inr a
       | None => inl IndexError
       end
  else inl IndexError.

(** [l[v]] for an arbitrary scalar [v]: only integers index a list. *)
Definition list_getitem_value {A} (l : list A) (v : value) : exn + A :=
  match v with
  | VInt i => list_getitem l i
  | VFloat _ | VStr _ => inl TypeError
  end.

(** [range(n)] *)
Definition range (n : nat) : list nat := seq 0 n.

(** [enumerate(l)] *)
Fixpoint enumerate_from {A} (k : nat) (l : list A) : list (nat * A) :=
  match l with
  | [] => []
  | a :: l' => (k, a) :: enumerate_from (S k) l'
  end.

Definition enumerate {A} (l : list A) : list (nat * A) := enumerate_from 0 l.

(** ** Tables (astropy) *)

(** A table is an ordered list of named columns. *)
Definition Column := list value.
Definition Table := list (string * Column).

Definition colnames (t : Table) : list string := map fst t.

(** [len(t)]: the number of rows, 0 for a table without columns. *)
Definition len_table (t : Table) : nat :=
  match t with
  | [] => 0
  | (_, c) :: _ => length c
  end.

(** [t[name]]: the column of that name, [KeyError] when there is none. *)
Fixpoint table_getitem (t : Table) (name : string) : exn + Column :=
  match t with
  | [] => inl KeyError
  | (n, c) :: t' => if String.eqb n name then inr c else table_getitem t' name
  end.

Definition same_lengths (n : nat) (t : Table) : bool :=
  forallb (fun nc => Nat.eqb (length (snd nc)) n) t.

(** [Table({name: column, ...})]: the columns in the order of the dict;
    columns of different lengths are refused with [ValueError].  The
    cells are kept here as the Python values handed in: astropy goes on
    to give each column a single type (a column holding a string and an
    integer becomes a column of strings), which changes cell values and
    is not part of this definition; nothing below relies on the cells of
    a built table being what a file read back holds. *)
Definition astropy_Table (cols : list (string * Column)) : exn + Table :=
  if same_lengths (len_table cols) cols then inr cols else inl ValueError.

(** ** Sky coordinates *)

Record SkyCoord : Type := { ra : float; dec : float }.

(** ** Event records and the shared record store *)

Record Key : Type :=
  { objectid : value; label : value; band : string; time : value }.

(** A row of a frame before [set_index]: six plain columns. *)
Record FrameRow : Type :=
  { c_flux : float; c_err : float; c_time : value;
    c_objectid : value; c_band : string; c_label : value }.

(** A row once [objectid], [label], [band], [time] are the index. *)
Record Row : Type := { key : Key; flux : float; err : float }.

Definition DataFrame := list Row.

Fixpoint zip6 (fl er : list float) (ti ob : list value) (ba : list string)
  (la : list value) : list FrameRow :=
  match fl, er, ti, ob, ba, la with
  | f :: fl', e :: er', t :: ti', o :: ob', b :: ba', l :: la' =>
      {| c_flux := f; c_err := e; c_time := t;
         c_objectid := o; c_band := b; c_label := l |}
        :: zip6 fl' er' ti' ob' ba' la'
  | _, _, _, _, _, _ => []
  end.

(** [pd.DataFrame(dict(flux=, err=, time=, objectid=, band=, label=))]:
    one row per position; columns of different lengths are refused with
    [ValueError]. *)
Definition pd_DataFrame (fl er : list float) (ti ob : list value)
  (ba : list string) (la : list value) : exn + list FrameRow :=
  let n := length fl in
  if Nat.eqb (length er) n && Nat.eqb (length ti) n && Nat.eqb (length ob) n
     && Nat.eqb (length ba) n && Nat.eqb (length la) n
  then inr (zip6 fl er ti ob ba la)
  else inl ValueError.

(** [.set_index(["objectid", "label", "band", "time"])] *)
Definition set_index (df : list FrameRow) : DataFrame :=
  map (fun r => {| key := {| objectid := c_objectid r; label := c_label r;
                             band := c_band r; time := c_time r |};
                   flux := c_flux r; err := c_err r |}) df.

(** Modelled from the spec: the class [MultiIndexDFObject] of the module
    [data_structures] is imported by the source but is not part of it.
    The specification describes it as a collection of event records,
    created empty, whose single mutating operation appends a batch of
    rows; nothing is deduplicated, updated or removed. *)
Definition MultiIndexDFObject := list Row.

(** Modelled from the spec: the constructor [MultiIndexDFObject()], which
    gives the store "created empty at the start of a retrieval call". *)
Definition MultiIndexDFObject_new : MultiIndexDFObject := [].

(** Modelled from the spec: the method [append], the store's "single
    mutating operation -- append a batch of rows"; the rows already
    stored stay, the batch follows them. *)
Definition append (df_lc : MultiIndexDFObject) (x : DataFrame)
  : MultiIndexDFObject := df_lc ++ x.

(** ** The outside world *)

(** The library calls of the module that reach outside the process, as an
    interface.  Each is a transition of the [World] that answers or
    raises; nothing is assumed about the answers.

    - [regsearch]: [pyvo.regsearch(servicetype='tap', keywords=['heasarc'])];
    - [run_sync h q f]: [h.service.run_sync(q, uploads={'mytable': f})]
      followed by [.to_table()];
    - [query_region c m r]: [Heasarc.query_region(c, mission=m, radius=r)];
    - [table_write t f]: [t.write(f, format='votable', overwrite=True)];
    - [table_read f]: [Table.read(f, format='votable')] (used to state the
      round trip only);
    - [astype_float v]: numpy's [v.astype(float)];
    - [repr_float x]: the text of a float inside an f-string. *)
Class Env : Type :=
  { World : Type;
    TapService : Type;
    Quantity : Type;
    regsearch : M World (list TapService);
    run_sync : TapService -> string -> string -> M World Table;
    query_region : SkyCoord -> string -> Quantity -> M World Table;
    table_write : Table -> string -> M World unit;
    table_read : string -> M World Table;
    astype_float : value -> exn + float;
    repr_float : float -> string }.

(** A request sent over the network, as recorded in the log. *)
Inductive request `{Env} : Type :=
| RegistrySearch
| TapQuery (query : string) (upload : string)
| ConeSearch (coord : SkyCoord) (mission : string) (radius : Quantity).

(** The state of a retrieval call: the world, the local object [df_lc],
    and the log of the requests sent so far. *)
Record state `{Env} : Type :=
  { world : World; df_lc : MultiIndexDFObject; requests : list request }.

(** A network call: the world moves, the request is logged, [df_lc] is
    untouched, whether the call answers or raises. *)
Definition call `{Env} {A} (rq : request) (op : M World A) : M state A :=
  fun s =>
    let s' w := {| world := w; df_lc := df_lc s;
                   requests := requests s ++ [rq] |} in
    match op (world s) with
    | Return a w => Return a (s' w)
    | Raise e w => Raise e (s' w)
    end.

(** [df_lc.append(x)] *)
Definition df_lc_append `{Env} (x : DataFrame) : M state unit :=
  fun s => Return tt {| world := world s; df_lc := append (df_lc s) x;
                        requests := requests s |}.

(** [df_lc = MultiIndexDFObject()] at the start of a call made in world [w]. *)
Definition initial `{Env} (w : World) : state :=
  {| world := w; df_lc := MultiIndexDFObject_new; requests := [] |}.

(** ** [make_VOTable] *)

Definition votable_columns (coords_list : list (value * SkyCoord))
  (labels_list : list string) : list (string * Column) :=
  [ ("name"%string, map VStr labels_list);
    ("ra"%string, map (fun oc => VFloat (ra (snd oc))) coords_list);
    ("dec"%string, map (fun oc => VFloat (dec (snd oc))) coords_list);
    ("ID"%string, map fst coords_list) ].

Definition make_VOTable `{Env} (coords_list : list (value * SkyCoord))
  (labels_list : list string) (sourcefilename : string) : M World string :=
  tab <- lift (astropy_Table (votable_columns coords_list labels_list)) ;;
  table_write tab sourcefilename ;;;
  ret sourcefilename.

(** ** [HEASARC_get_lightcurves] *)

Definition NL : string := String (ascii_of_nat 10) EmptyString.

(** The f-string [fermiquery], with [heasarc_cat[m]] and
    [max_error_radius[m]] interpolated. *)
Definition fermiquery `{Env} (cat : string) (thr : float) : string :=
  (NL ++
   "            SELECT cat.name, cat.ra, cat.dec, cat.error_radius, cat.time,  mt.ID, mt.name" ++ NL ++
   "            FROM " ++ cat ++ " cat, tap_upload.mytable mt" ++ NL ++
   "            WHERE" ++ NL ++
   "            cat.error_radius < " ++ repr_float thr ++ " AND" ++ NL ++
   "            CONTAINS(POINT('ICRS',mt.ra,mt.dec),CIRCLE('ICRS',cat.ra,cat.dec,cat.error_radius))=1" ++ NL ++
   "             ")%string.

(** The frame [df_fermi] built from a result table. *)
Definition df_fermi (fermiresulttable : Table) : exn + DataFrame :=
  let n := len_table fermiresulttable in
  match table_getitem fermiresulttable "time" with
  | inl e => inl e
  | inr ti =>
    match table_getitem fermiresulttable "id" with
    | inl e => inl e
    | inr ob =>
      match table_getitem fermiresulttable "name2" with
      | inl e => inl e
      | inr la =>
        match pd_DataFrame (repeat placeholder n) (repeat placeholder n)
                ti ob (repeat "Fermi GRB"%string n) la with
        | inl e => inl e
        | inr df => inr (set_index df)
        end
      end
    end
  end.

(** The body of the loop over [m].  [print] and [tqdm] only display
    progress and are left out. *)
Definition bulk_body `{Env} (heasarc_cat : list string)
  (max_error_radius : list float) (xml_filename : string)
  (heasarc_tap : TapService) (m : nat) : M state unit :=
  cat <- lift (list_getitem heasarc_cat (Z.of_nat m)) ;;
  thr <- lift (list_getitem max_error_radius (Z.of_nat m)) ;;
  let q := fermiquery cat thr in
  fermiresulttable <- call (TapQuery q xml_filename)
                           (run_sync heasarc_tap q xml_filename) ;;
  df <- lift (df_fermi fermiresulttable) ;;
  df_lc_append df.

Definition bulk_loop `{Env} (heasarc_cat : list string)
  (max_error_radius : list float) (xml_filename : string)
  (heasarc_tap : TapService) (ms : list nat) : M state unit :=
  for_each (bulk_body heasarc_cat max_error_radius xml_filename heasarc_tap) ms.

(** The whole function, from its first statement to [return df_lc]; run
    it from [initial w]. *)
Definition HEASARC_get_lightcurves_from `{Env} (heasarc_cat : list string)
  (max_error_radius : list float) (xml_filename : string)
  : M state MultiIndexDFObject :=
  services <- call RegistrySearch regsearch ;;
  heasarc_tap <- lift (list_getitem services 0) ;;
  bulk_loop heasarc_cat max_error_radius xml_filename heasarc_tap
            (range (length heasarc_cat)) ;;;
  (fun s => Return (df_lc s) s).

Definition HEASARC_get_lightcurves `{Env} (heasarc_cat : list string)
  (max_error_radius : list float) (xml_filename : string) (w : World)
  : result state MultiIndexDFObject :=
  HEASARC_get_lightcurves_from heasarc_cat max_error_radius xml_filename
                               (initial w).

(** ** [HEASARC_get_lightcurves_forloop] *)

(** [results[column][0].astype(float)] *)
Definition time_mjd_of `{Env} (results : Table) (column : string)
  : exn + float :=
  match table_getitem results column with
  | inl e => inl e
  | inr col =>
    match list_getitem col 0 with
    | inl e => inl e
    | inr v => astype_float v
    end
  end.

(** [dfsingle]: every column is a one-element list, and the scalar
    [label=lab] is broadcast to that single row. *)
Definition dfsingle (time_mjd : float) (objectid : value) (mission : string)
  (lab : string) : exn + DataFrame :=
  match pd_DataFrame [placeholder] [placeholder] [VFloat time_mjd]
          [objectid] [mission] [VStr lab] with
  | inl e => inl e
  | inr df => inr (set_index df)
  end.

(** The statements inside [try:]. *)
Definition forloop_try `{Env} (labels_list : list string) (radius : Quantity)
  (objectid : value) (coord : SkyCoord) (mission : string) : M state unit :=
  results <- call (ConeSearch coord mission radius)
                  (query_region coord mission radius) ;;
  time_mjd <- lift (if String.eqb mission "FERMIGTRIG"
                    then time_mjd_of results "TRIGGER_TIME"
                    else time_mjd_of results "TIME") ;;
  lab <- lift (list_getitem_value labels_list objectid) ;;
  df <- lift (dfsingle time_mjd objectid mission lab) ;;
  df_lc_append df.

(** The body of the loop over [enumerate(mission_list)]; [mcount] is not
    used. *)
Definition forloop_body `{Env} (labels_list : list string) (radius : Quantity)
  (objectid : value) (coord : SkyCoord) (mm : nat * string) : M state unit :=
  let '(mcount, mission) := mm in
  try_except_AttributeError_pass
    (forloop_try labels_list radius objectid coord mission).

Definition mission_loop `{Env} (labels_list : list string) (radius : Quantity)
  (objectid : value) (coord : SkyCoord) (mission_list : list string)
  : M state unit :=
  for_each (forloop_body labels_list radius objectid coord)
           (enumerate mission_list).

Definition coords_loop `{Env} (labels_list : list string) (radius : Quantity)
  (mission_list : list string) (coords_list : list (value * SkyCoord))
  : M state unit :=
  for_each (fun oc => mission_loop labels_list radius (fst oc) (snd oc)
                                   mission_list)
           coords_list.

Definition HEASARC_get_lightcurves_forloop_from `{Env}
  (coords_list : list (value * SkyCoord)) (labels_list : list string)
  (radius : Quantity) (mission_list : list string)
  : M state MultiIndexDFObject :=
  coords_loop labels_list radius mission_list coords_list ;;;
  (fun s => Return (df_lc s) s).

Definition HEASARC_get_lightcurves_forloop `{Env}
  (coords_list : list (value * SkyCoord)) (labels_list : list string)
  (radius : Quantity) (mission_list : list string) (w : World)
  : result state MultiIndexDFObject :=
  HEASARC_get_lightcurves_forloop_from coords_list labels_list radius
                                       mission_list (initial w).

(** The state a computation ends in, returned or raised. *)
Definition final {S A} (r : result S A) : S :=
  match r with Return _ s => s | Raise _ s => s end.

(** The cross-match queries of a log, in the order they were sent. *)
Fixpoint tap_queries `{Env} (log : list request) : list (string * string) :=
  match log with
  | [] => []
  | TapQuery q f :: log' => (q, f) :: tap_queries log'
  | _ :: log' => tap_queries log'
  end.

(** The event record the fallback retriever builds for one answer. *)
Definition event (objectid : value) (lab : string) (mission : string)
  (time_mjd : float) : Row :=
  {| key := {| objectid := objectid; label := VStr lab; band := mission;
               time := VFloat time_mjd |};
     flux := placeholder; err := placeholder |}.

(** [c] keeps [P]: from a state with [P], the state [c] ends in has [P],
    whether [c] returns or raises. *)
Definition keeps {S A} (P : S -> Prop) (c : M S A) : Prop :=
  forall s, P s -> P (final (c s)).

(** Flux and error of a row are the placeholder. *)
Definition is_placeholder_row (r : Row) : Prop :=
  flux r = placeholder /\ err r = placeholder.

(** The registry lookup finds at least one service, in every world. *)
Definition registry_answers `{Env} : Prop :=
  forall w, exists h hs w', regsearch w = Return (h :: hs) w'.

(** The archive answers every cross-match query, in every world, with a
    table the frame [df_fermi] can be built from. *)
Definition archive_answers `{Env} : Prop :=
  forall h q f w, exists t w' df,
    run_sync h q f w = Return t w' /\ df_fermi t = inr df.

(** The cross-match request for one catalog and its threshold. *)
Definition crossmatch `{Env} (xml_filename : string) (ct : string * float)
  : request :=
  TapQuery (fermiquery (fst ct) (snd ct)) xml_filename.

(** The state after a network call that sent [rq] and left the world in
    [w]. *)
Definition after_call `{Env} (s : state) (rq : request) (w : World) : state :=
  {| world := w; df_lc := df_lc s; requests := requests s ++ [rq] |}.

(** ** Test doubles

    Two concrete worlds on which the functions run by computation. *)
Module Demo.

(** A world that replays scripted answers: each archive call consumes
    the next answer of its script; files are kept by name. *)
Record world : Type :=
  { files : list (string * Table);
    tap_answers : list (exn + Table);
    cone_answers : list (exn + Table) }.

Definition answer {A} (a : exn + A) (w : world) : result world A :=
  match a with inl e => Raise e w | inr t => Return t w end.

Definition scripted_run_sync (h : unit) (q upload : string)
  : M world Table :=
  fun w => match tap_answers w with
           | [] => Raise (OtherError "DALServiceError") w
           | a :: rest =>
               answer a {| files := files w; tap_answers := rest;
                           cone_answers := cone_answers w |}
           end.

Definition scripted_query_region (c : SkyCoord) (mission : string)
  (radius : unit) : M world Table :=
  fun w => match cone_answers w with
           | [] => Raise (OtherError "ConnectionError") w
           | a :: rest =>
               answer a {| files := files w; tap_answers := tap_answers w;
                           cone_answers := rest |}
           end.

Definition file_write (t : Table) (f : string) : M world unit :=
  fun w => Return tt {| files := (f, t) :: files w;
                        tap_answers := tap_answers w;
                        cone_answers := cone_answers w |}.

Definition file_read (f : string) : M world Table :=
  fun w => match find (fun ft => String.eqb (fst ft) f) (files w) with
           | Some ft => Return (snd ft) w
           | None => Raise (OtherError "FileNotFoundError") w
           end.

Definition float_of (v : value) : exn + float :=
  match v with
  | VFloat f => inr f
  | VInt _ | VStr _ => inl ValueError
  end.

Definition show_float (x : float) : string :=
  if PrimFloat.eqb x 1 then "1.0"%string
  else if PrimFloat.eqb x 3 then "3.0"%string
  else "0.5"%string.

Definition scripted : Env :=
  {| World := world; TapService := unit; Quantity := unit;
     regsearch := fun w => Return [tt] w;
     run_sync := scripted_run_sync;
     query_region := scripted_query_region;
     table_write := file_write;
     table_read := file_read;
     astype_float := float_of;
     repr_float := show_float |}.

Definition blank : world :=
  {| files := []; tap_answers := []; cone_answers := [] |}.

Definition with_tap (l : list (exn + Table)) : world :=
  {| files := []; tap_answers := l; cone_answers := [] |}.

Definition with_cone (l : list (exn + Table)) : world :=
  {| files := []; tap_answers := []; cone_answers := l |}.

(** One match of the uploaded source 0 at the given time. *)
Definition one_match (t : float) : Table :=
  [ ("name"%string, [VStr "GRB"]); ("ra"%string, [VFloat 10]);
    ("dec"%string, [VFloat 20]); ("error_radius"%string, [VFloat 0.5]);
    ("time"%string, [VFloat t]); ("id"%string, [VInt 0]);
    ("name2"%string, [VStr "paper"]) ].

(** A cross-match answer without rows. *)
Definition no_match : Table :=
  [ ("name"%string, []); ("ra"%string, []); ("dec"%string, []);
    ("error_radius"%string, []); ("time"%string, []);
    ("id"%string, []); ("name2"%string, []) ].

(** A cone-search answer of two rows carrying both time columns. *)
Definition two_rows : Table :=
  [ ("TRIGGER_TIME"%string, [VFloat 55000.5; VFloat 56000.25]);
    ("TIME"%string, [VFloat 50123.75; VFloat 50200]) ].

(** A world whose archive always answers with the same single match. *)
Definition steady : Env :=
  {| World := unit; TapService := unit; Quantity := unit;
     regsearch := fun w => Return [tt] w;
     run_sync := fun _ _ _ w => Return (one_match 55000.5) w;
     query_region := fun _ _ _ w => Return two_rows w;
     table_write := fun _ _ w => Return tt w;
     table_read := fun _ w => Raise (OtherError "FileNotFoundError") w;
     astype_float := float_of;
     repr_float := show_float |}.

Definition origin : SkyCoord := {| ra := 10; dec := 20 |}.
Definition pole : SkyCoord := {| ra := 55.25; dec := -89 |}.

Definition labels : list string := ["a"%string; "b"%string].
Definition in_order : list (value * SkyCoord) :=
  [(VInt 0, origin); (VInt 1, pole)].
Definition swapped : list (value * SkyCoord) :=
  [(VInt 1, origin); (VInt 0, pole)].
Definition catalogs : list string :=
  ["FERMIGTRIG"%string; "SAXGRBMGRB"%string].
Definition thresholds : list float := [1%float; 3%float].
Definition missions : list string :=
  ["FERMIGTRIG"%string; "SAXGRBMGRB"%string; "INTGRBCAT"%string].

(** Answers for [in_order] and [missions]: the fifth query, for the
    second coordinate and the second mission, raises [e]. *)
Definition fifth_raises (e : exn) : world :=
  with_cone [inr two_rows; inr two_rows; inr two_rows;
             inr two_rows; inl e; inr two_rows].

End Demo.

(** ** [make_hist_error_radii] *)

(** The two library calls only [make_hist_error_radii] makes:

    - [run_sync_query h q]: [h.service.run_sync(q)], without uploads,
      followed by [.to_table()];
    - [plt_hist x bins range]: [plt.hist(x, bins=bins, range=range)],
      whose returned counts are discarded by the source. *)
Class PlotEnv (E : Env) : Type :=
  { run_sync_query : TapService -> string -> M World Table;
    plt_hist : Column -> nat -> float * float -> M World unit }.

(** The f-string [heasarcquery], with [missioncat] interpolated. *)
Definition heasarcquery (missioncat : string) : string :=
  (NL ++
   "        SELECT TOP 5000 cat.name, cat.ra, cat.dec, cat.error_radius" ++ NL ++
   "        FROM " ++ missioncat ++ " as cat" ++ NL ++
   "         ")%string.

Definition make_hist_error_radii {E : Env} {P : PlotEnv E}
  (missioncat : string) : M World Table :=
  services <- regsearch ;;
  heasarc_tap <- lift (list_getitem services 0) ;;
  heasarcresulttable <- run_sync_query heasarc_tap (heasarcquery missioncat) ;;
  error_radius <- lift (table_getitem heasarcresulttable "error_radius") ;;
  plt_hist error_radius 30 (0%float, 10%float) ;;;
  ret heasarcresulttable.

(** ** Vocabulary of the further properties *)

(** [p] is an initial segment of [full]. *)
Definition initial_segment {A} (p full : list A) : Prop :=
  exists q, full = p ++ q.

(** The computation returned, rather than raised. *)
Definition returned {S A} (r : result S A) : bool :=
  match r with Return _ _ => true | Raise _ _ => false end.

(** The cone searches of the fallback retriever for all its pairs:
    coordinate by coordinate, and for each coordinate mission by
    mission. *)
Definition cone_requests `{Env} (radius : Quantity)
  (mission_list : list string) (coords_list : list (value * SkyCoord))
  : list request :=
  flat_map (fun oc => map (fun mission => ConeSearch (snd oc) mission radius)
                          mission_list)
           coords_list.

(** The archive queried with the texts [qs], one after the other, each
    with the upload [f]: the answers in order, in the world the last
    call leaves, or the first exception. *)
Fixpoint query_each `{Env} (h : TapService) (f : string) (qs : list string)
  : M World (list Table) :=
  match qs with
  | [] => ret []
  | q :: qs' =>
      t <- run_sync h q f ;;
      ts <- query_each h f qs' ;;
      ret (t :: ts)
  end.

(** A file system that stores tables the way astropy does for a column
    that mixes strings with other cells: the column is given the string
    type, every cell replaced by its text. *)
Module DemoAstropy.

Definition as_text (v : value) : value :=
  match v with
  | VStr s => VStr s
  | VInt z => VStr (NilZero.string_of_int (Z.to_int z))
  | VFloat x => VStr (Demo.show_float x)
  end.

Definition holds_string (c : Column) : bool :=
  existsb (fun v => match v with VStr _ => true | _ => false end) c.

Definition unify (c : Column) : Column :=
  if holds_string c then map as_text c else c.

Definition stored (t : Table) : Table :=
  map (fun nc => (fst nc, unify (snd nc))) t.

Definition write (t : Table) (f : string) : M Demo.world unit :=
  Demo.file_write (stored t) f.

Definition files : Env :=
  {| World := Demo.world; TapService := unit; Quantity := unit;
     regsearch := fun w => Return [tt] w;
     run_sync := Demo.scripted_run_sync;
     query_region := Demo.scripted_query_region;
     table_write := write;
     table_read := Demo.file_read;
     astype_float := Demo.float_of;
     repr_float := Demo.show_float |}.


End DemoAstropy.

Module DemoCount.

(** A world whose archive counts the queries it has answered. *)
Definition counting : Env :=
  {| World := nat; TapService := unit; Quantity := unit;
     regsearch := fun w => Return [tt] w;
     run_sync := fun _ _ _ w => Return (Demo.one_match 55000.5) (S w);
     query_region := fun _ _ _ w => Return Demo.two_rows (S w);
     table_write := fun _ _ w => Return tt w;
     table_read := fun _ w => Raise (OtherError "FileNotFoundError") w;
     astype_float := Demo.float_of;
     repr_float := Demo.show_float |}.

End DemoCount.

(** A world for [make_hist_error_radii] over the scripted world: the
    figure drawn last is kept as the file ["figure"]. *)
Module DemoPlot.

Definition draw (x : Column) (bins : nat) (range : float * float)
  : M Demo.world unit :=
  Demo.file_write [("hist"%string, x)] "figure".

Definition query_without_upload (h : unit) (q : string)
  : M Demo.world Table :=
  Demo.scripted_run_sync h q EmptyString.

Definition scripted : PlotEnv Demo.scripted :=
  @Build_PlotEnv Demo.scripted query_without_upload draw.


(** An answer that lacks the [error_radius] column. *)
Definition no_radius : Table :=
  [ ("name"%string, [VStr "g1"]); ("ra"%string, [VFloat 1]);
    ("dec"%string, [VFloat 4]) ].

End DemoPlot.

(** A world whose registry knows no service. *)
Module DemoRegistry.

Definition empty : Env :=
  {| World := unit; TapService := unit; Quantity := unit;
     regsearch := fun w => Return [] w;
     run_sync := fun _ _ _ w => Return Demo.no_match w;
     query_region := fun _ _ _ w => Return Demo.two_rows w;
     table_write := fun _ _ w => Return tt w;
     table_read := fun _ w => Raise (OtherError "FileNotFoundError") w;
     astype_float := Demo.float_of;
     repr_float := Demo.show_float |}.

(** A world whose archive has nothing at any position: every cone search
    raises [AttributeError]. *)
Definition absent : Env :=
  {| World := unit; TapService := unit; Quantity := unit;
     regsearch := fun w => Return [tt] w;
     run_sync := fun _ _ _ w => Return Demo.no_match w;
     query_region := fun _ _ _ w => Raise AttributeError w;
     table_write := fun _ _ w => Return tt w;
     table_read := fun _ w => Raise (OtherError "FileNotFoundError") w;
     astype_float := Demo.float_of;
     repr_float := Demo.show_float |}.

End DemoRegistry.

(** * Properties *)

Unset Implicit Arguments.

(** ** Sequencing and loops *)

Lemma bind_return {S A B} (c : M S A) (k : A -> M S B) s a s' :
  c s = Return a s' -> bind c k s = k a s'.
Proof. intros Hc; unfold bind; now rewrite Hc. Qed.

Lemma for_each_app {S A} (body : A -> M S unit) l1 l2 s :
  for_each body (l1 ++ l2) s = (for_each body l1 ;;; for_each body l2) s.
Proof.
  revert s; induction l1 as [|a l1 IH]; intros s; simpl.
  - reflexivity.
  - unfold bind in *.
    destruct (body a s) as [[] s'|e s']; [|reflexivity].
    apply IH.
Qed.

Lemma for_each_ext {S A B} (f : A -> M S unit) (g : B -> M S unit)
  (h : B -> A) l :
  (forall b s, g b s = f (h b) s) ->
  forall s, for_each g l s = for_each f (map h l) s.
Proof.
  intros Hfg; induction l as [|b l IH]; intros s; simpl; [reflexivity|].
  unfold bind; rewrite Hfg.
  destruct (f (h b) s); [apply IH | reflexivity].
Qed.

Lemma map_snd_enumerate_from {A} (l : list A) k :
  map snd (enumerate_from k l) = l.
Proof.
  revert k; induction l as [|a l IH]; intros k; simpl; [|rewrite IH];
    reflexivity.
Qed.

(** ** Indexing *)

Lemma list_getitem_nth {A} (l : list A) m a :
  nth_error l m = Some a -> list_getitem l (Z.of_nat m) = inr a.
Proof.
  intros Hn.
  assert (Hlt : m < length l) by (apply nth_error_Some; congruence).
  unfold list_getitem.
  replace (Z.of_nat m <? 0)%Z with false by (symmetry; apply Z.ltb_ge; lia).
  replace (0 <=? Z.of_nat m)%Z with true by (symmetry; apply Z.leb_le; lia).
  replace (Z.of_nat m <? Z.of_nat (length l))%Z with true
    by (symmetry; apply Z.ltb_lt; lia).
  simpl. now rewrite Nat2Z.id, Hn.
Qed.

Lemma list_getitem_middle {A} (pre : list A) a suf :
  list_getitem (pre ++ a :: suf) (Z.of_nat (length pre)) = inr a.
Proof.
  apply list_getitem_nth.
  rewrite nth_error_app2, Nat.sub_diag; [reflexivity | lia].
Qed.

(** ** Invariants of the record store *)

Lemma keeps_bind {S A B} (P : S -> Prop) (c : M S A) (k : A -> M S B) :
  keeps P c -> (forall a, keeps P (k a)) -> keeps P (bind c k).
Proof.
  intros Hc Hk s Hs. unfold bind.
  specialize (Hc s Hs). destruct (c s) as [a s'|e s']; simpl in *.
  - now apply Hk.
  - exact Hc.
Qed.

Lemma keeps_try {S} (P : S -> Prop) (c : M S unit) :
  keeps P c -> keeps P (try_except_AttributeError_pass c).
Proof.
  intros Hc s Hs. unfold try_except_AttributeError_pass.
  specialize (Hc s Hs). destruct (c s) as [a s'|e s']; simpl in *.
  - exact Hc.
  - destruct (is_AttributeError e); exact Hc.
Qed.

Lemma keeps_for_each {S A} (P : S -> Prop) (body : A -> M S unit) l :
  (forall a, keeps P (body a)) -> keeps P (for_each body l).
Proof.
  intros Hb; induction l as [|a l IH]; simpl.
  - intros s Hs; exact Hs.
  - apply keeps_bind; [apply Hb | intros _; exact IH].
Qed.

Lemma zip6_Forall (Pf Pe : float -> Prop) (Pb : string -> Prop)
  fl er ti ob ba la :
  Forall Pf fl -> Forall Pe er -> Forall Pb ba ->
  Forall (fun r => Pf (c_flux r) /\ Pe (c_err r) /\ Pb (c_band r))
         (zip6 fl er ti ob ba la).
Proof.
  intros Hf; revert er ti ob ba la.
  induction Hf as [|f fl Hf _ IH]; intros er ti ob ba la He Hb; simpl.
  - constructor.
  - destruct er as [|e er], ti as [|t ti], ob as [|o ob], ba as [|b ba],
      la as [|l la]; try constructor.
    + simpl; inversion He; inversion Hb; auto.
    + inversion He; inversion Hb; subst; apply IH; assumption.
Qed.

Lemma Forall_repeat {A} (P : A -> Prop) a n : P a -> Forall P (repeat a n).
Proof. intros Ha; induction n; simpl; constructor; assumption. Qed.

Lemma df_fermi_rows t df :
  df_fermi t = inr df ->
  Forall (fun r => is_placeholder_row r /\ band (key r) = "Fermi GRB"%string)
         df.
Proof.
  unfold df_fermi, pd_DataFrame.
  destruct (table_getitem t "time") as [|ti]; [discriminate|].
  destruct (table_getitem t "id") as [|ob]; [discriminate|].
  destruct (table_getitem t "name2") as [|la]; [discriminate|].
  match goal with |- context [if ?b then _ else _] => destruct b end;
    [|discriminate].
  intros [= <-]. unfold set_index. rewrite Forall_map.
  eapply Forall_impl;
    [| apply (zip6_Forall (fun f => f = placeholder)
                (fun e => e = placeholder)
                (fun b => b = "Fermi GRB"%string));
       apply Forall_repeat; reflexivity].
  intros r (Hf & He & Hb); unfold is_placeholder_row; simpl; auto.
Qed.

Lemma dfsingle_eq time_mjd oid mission lab :
  dfsingle time_mjd oid mission lab = inr [event oid lab mission time_mjd].
Proof. reflexivity. Qed.

(** ** The bulk cross-match retriever *)

Section Bulk.
Context {E : Env}.

Lemma keeps_call {A} (P : state -> Prop) (rq : request) (op : M World A) :
  (forall s w, P s -> P (after_call s rq w)) -> keeps P (call rq op).
Proof.
  intros HP s Hs. unfold call.
  destruct (op (world s)); simpl; apply (HP s _ Hs).
Qed.

Lemma keeps_lift_bind {A B} (P : state -> Prop) (r : exn + A)
  (k : A -> M state B) :
  (forall a, r = inr a -> keeps P (k a)) -> keeps P (bind (lift r) k).
Proof.
  intros Hk s Hs. destruct r as [e|a]; simpl.
  - exact Hs.
  - unfold bind; simpl. now apply (Hk a).
Qed.

Lemma keeps_append (P : Row -> Prop) (x : DataFrame) :
  Forall P x ->
  keeps (fun s => Forall P (df_lc s)) (df_lc_append x).
Proof.
  intros Hx s Hs. simpl. unfold append. apply Forall_app; split; assumption.
Qed.

Lemma bulk_body_keeps heasarc_cat max_error_radius xml_filename h m :
  keeps (fun s => Forall (fun r => is_placeholder_row r /\
                                   band (key r) = "Fermi GRB"%string)
                         (df_lc s))
        (bulk_body heasarc_cat max_error_radius xml_filename h m).
Proof.
  unfold bulk_body.
  apply keeps_lift_bind; intros cat _.
  apply keeps_lift_bind; intros thr _.
  apply keeps_bind; [apply keeps_call; intros s w Hs; exact Hs | intros t].
  apply keeps_lift_bind; intros df Hdf.
  apply keeps_append. exact (df_fermi_rows t df Hdf).
Qed.

Lemma bulk_keeps heasarc_cat max_error_radius xml_filename :
  keeps (fun s => Forall (fun r => is_placeholder_row r /\
                                   band (key r) = "Fermi GRB"%string)
                         (df_lc s))
        (HEASARC_get_lightcurves_from heasarc_cat max_error_radius
                                      xml_filename).
Proof.
  unfold HEASARC_get_lightcurves_from.
  apply keeps_bind; [apply keeps_call; intros s w Hs; exact Hs | intros sv].
  apply keeps_lift_bind; intros h _.
  apply keeps_bind; [| intros _ s Hs; exact Hs].
  apply keeps_for_each; intros m. apply bulk_body_keeps.
Qed.

(** What the loop body does when the archive answers. *)
Lemma bulk_body_answer heasarc_cat max_error_radius xml_filename h m s
  cat thr t w' df :
  list_getitem heasarc_cat (Z.of_nat m) = inr cat ->
  list_getitem max_error_radius (Z.of_nat m) = inr thr ->
  run_sync h (fermiquery cat thr) xml_filename (world s) = Return t w' ->
  df_fermi t = inr df ->
  bulk_body heasarc_cat max_error_radius xml_filename h m s
  = Return tt {| world := w'; df_lc := df_lc s ++ df;
                 requests := requests s
                             ++ [crossmatch xml_filename (cat, thr)] |}.
Proof.
  intros Hc Ht Hq Hdf. unfold bulk_body, bind, call.
  rewrite Hc, Ht; simpl. rewrite Hq, Hdf; reflexivity.
Qed.

Lemma bulk_loop_requests xml_filename h :
  archive_answers ->
  forall suf_c suf_t pre_c pre_t s,
    length pre_c = length pre_t ->
    length suf_c = length suf_t ->
    exists s',
      bulk_loop (pre_c ++ suf_c) (pre_t ++ suf_t) xml_filename h
                (seq (length pre_c) (length suf_c)) s = Return tt s'
      /\ requests s' = requests s
                       ++ map (crossmatch xml_filename) (combine suf_c suf_t).
Proof.
  intros Hans. unfold bulk_loop.
  induction suf_c as [|c sc IH]; intros suf_t pre_c pre_t s Hpre Hsuf.
  - exists s. simpl. rewrite app_nil_r. split; reflexivity.
  - destruct suf_t as [|t st]; [discriminate|]. simpl in Hsuf.
    destruct (Hans h (fermiquery c t) xml_filename (world s))
      as (tb & w' & df & Hq & Hdf).
    simpl seq. simpl for_each.
    erewrite bind_return;
      [| eapply bulk_body_answer with (cat := c) (thr := t);
         [apply list_getitem_middle
         | rewrite Hpre; apply list_getitem_middle
         | exact Hq | exact Hdf]].
    specialize (IH st (pre_c ++ [c]) (pre_t ++ [t])
      {| world := w'; df_lc := df_lc s ++ df;
         requests := requests s ++ [crossmatch xml_filename (c, t)] |}).
    rewrite <- !app_assoc in IH. simpl in IH.
    rewrite !length_app in IH. simpl in IH.
    rewrite Nat.add_1_r in IH.
    destruct IH as (s' & Hrun & Hreq); [lia | lia |].
    exists s'. split; [exact Hrun|].
    rewrite Hreq. simpl. rewrite <- app_assoc. reflexivity.
Qed.

Lemma tap_queries_crossmatch xml_filename cts :
  tap_queries (map (crossmatch xml_filename) cts)
  = map (fun ct => (fermiquery (fst ct) (snd ct), xml_filename)) cts.
Proof. induction cts; simpl; [|rewrite IHcts]; reflexivity. Qed.

Lemma nth_error_combine {A B} (la : list A) (lb : list B) i a b :
  nth_error la i = Some a -> nth_error lb i = Some b ->
  nth_error (combine la lb) i = Some (a, b).
Proof.
  revert lb i; induction la as [|x la IH]; intros lb i Ha Hb.
  - destruct i; discriminate.
  - destruct lb as [|y lb]; [destruct i; discriminate|].
    destruct i as [|i]; simpl in *.
    + congruence.
    + now apply IH.
Qed.

End Bulk.

(** ** The per-object fallback retriever *)

Section Fallback.
Context {E : Env}.

Lemma list_getitem_head {A} (v : A) rest :
  list_getitem (v :: rest) 0 = inr v.
Proof. reflexivity. Qed.

Lemma time_mjd_of_first results column v rest t :
  table_getitem results column = inr (v :: rest) ->
  astype_float v = inr t ->
  time_mjd_of results column = inr t.
Proof.
  intros Hc Ht. unfold time_mjd_of. now rewrite Hc, list_getitem_head.
Qed.

Lemma forloop_try_keeps labels_list radius oid coord mission :
  keeps (fun s => Forall is_placeholder_row (df_lc s))
        (forloop_try labels_list radius oid coord mission).
Proof.
  unfold forloop_try.
  apply keeps_bind; [apply keeps_call; intros s w Hs; exact Hs | intros t].
  apply keeps_lift_bind; intros time_mjd _.
  apply keeps_lift_bind; intros lab _.
  apply keeps_lift_bind; intros df Hdf.
  apply keeps_append.
  rewrite dfsingle_eq in Hdf. injection Hdf as <-.
  repeat constructor.
Qed.

Lemma forloop_keeps coords_list labels_list radius mission_list :
  keeps (fun s => Forall is_placeholder_row (df_lc s))
        (HEASARC_get_lightcurves_forloop_from coords_list labels_list
                                              radius mission_list).
Proof.
  unfold HEASARC_get_lightcurves_forloop_from, coords_loop, mission_loop.
  apply keeps_bind; [| intros _ s Hs; exact Hs].
  apply keeps_for_each; intros [oid coord].
  apply keeps_for_each; intros [mcount mission].
  apply keeps_try, forloop_try_keeps.
Qed.

(** The statements under [try:] when the query answers, the time is
    found and the label exists. *)
Lemma forloop_try_success labels_list radius oid coord mission s
  results w' t lab :
  query_region coord mission radius (world s) = Return results w' ->
  (if String.eqb mission "FERMIGTRIG"
   then time_mjd_of results "TRIGGER_TIME"
   else time_mjd_of results "TIME") = inr t ->
  list_getitem_value labels_list oid = inr lab ->
  forloop_try labels_list radius oid coord mission s
  = Return tt
      {| world := w';
         df_lc := df_lc s ++ [event oid lab mission t];
         requests := requests s ++ [ConeSearch coord mission radius] |}.
Proof.
  intros Hq Ht Hl. unfold forloop_try, bind, call.
  rewrite Hq; simpl. rewrite Ht, Hl; reflexivity.
Qed.

(** A raising [try:] block has appended nothing. *)
Lemma forloop_try_raise labels_list radius oid coord mission s e s' :
  forloop_try labels_list radius oid coord mission s = Raise e s' ->
  df_lc s' = df_lc s.
Proof.
  unfold forloop_try, bind, call.
  destruct (query_region coord mission radius (world s)) as [t w|e0 w].
  - destruct (if String.eqb mission "FERMIGTRIG"
              then time_mjd_of t "TRIGGER_TIME"
              else time_mjd_of t "TIME") as [e1|tm]; simpl.
    + intros [= _ <-]; reflexivity.
    + destruct (list_getitem_value labels_list oid) as [e2|lab]; simpl.
      * intros [= _ <-]; reflexivity.
      * discriminate.
  - intros [= _ <-]; reflexivity.
Qed.

(** The inner loop does not depend on the counter of [enumerate]. *)
Lemma mission_loop_unfold labels_list radius oid coord mission_list s :
  mission_loop labels_list radius oid coord mission_list s
  = for_each (fun mission =>
                try_except_AttributeError_pass
                  (forloop_try labels_list radius oid coord mission))
             mission_list s.
Proof.
  unfold mission_loop, enumerate.
  rewrite <- (map_snd_enumerate_from mission_list 0) at 2.
  apply for_each_ext. intros [mcount mission] s0; reflexivity.
Qed.

Lemma mission_loop_app labels_list radius oid coord ms1 ms2 s :
  mission_loop labels_list radius oid coord (ms1 ++ ms2) s
  = (mission_loop labels_list radius oid coord ms1 ;;;
     mission_loop labels_list radius oid coord ms2) s.
Proof.
  rewrite mission_loop_unfold, for_each_app. unfold bind.
  rewrite <- mission_loop_unfold.
  destruct (mission_loop labels_list radius oid coord ms1 s);
    [apply eq_sym, mission_loop_unfold | reflexivity].
Qed.

Lemma mission_loop_cons labels_list radius oid coord mission ms s :
  mission_loop labels_list radius oid coord (mission :: ms) s
  = (try_except_AttributeError_pass
       (forloop_try labels_list radius oid coord mission) ;;;
     mission_loop labels_list radius oid coord ms) s.
Proof.
  rewrite mission_loop_unfold. simpl. unfold bind.
  destruct (try_except_AttributeError_pass _ s);
    [apply eq_sym, mission_loop_unfold | reflexivity].
Qed.

Lemma coords_loop_app labels_list radius mission_list cs1 cs2 s :
  coords_loop labels_list radius mission_list (cs1 ++ cs2) s
  = (coords_loop labels_list radius mission_list cs1 ;;;
     coords_loop labels_list radius mission_list cs2) s.
Proof. apply for_each_app. Qed.

End Fallback.

(** ** What the retrievers return *)

Lemma bulk_returns_df_lc (E : Env) heasarc_cat max_error_radius xml_filename
  w store s :
  HEASARC_get_lightcurves heasarc_cat max_error_radius xml_filename w
  = Return store s ->
  store = df_lc s.
Proof.
  unfold HEASARC_get_lightcurves, HEASARC_get_lightcurves_from, bind.
  destruct (call RegistrySearch regsearch (initial w)) as [sv s1|]; [|discriminate].
  destruct (lift (list_getitem sv 0) s1) as [h s2|]; [|discriminate].
  destruct (bulk_loop _ _ _ h _ s2); [|discriminate].
  now intros [= <- <-].
Qed.

Lemma forloop_returns_df_lc (E : Env) coords_list labels_list radius
  mission_list w store s :
  HEASARC_get_lightcurves_forloop coords_list labels_list radius mission_list w
  = Return store s ->
  store = df_lc s.
Proof.
  unfold HEASARC_get_lightcurves_forloop,
    HEASARC_get_lightcurves_forloop_from, bind.
  destruct (coords_loop _ _ _ _ (initial w)); [|discriminate].
  now intros [= <- <-].
Qed.

(** ** Tables without rows *)

Lemma table_getitem_empty (t : Table) (name : string) :
  same_lengths 0 t = true -> In name (colnames t) ->
  table_getitem t name = inr [].
Proof.
  induction t as [|[n c] t IH]; simpl; intros Hz Hin.
  - contradiction.
  - apply andb_prop in Hz as [Hc Ht].
    destruct (String.eqb n name) eqn:Hn.
    + apply Nat.eqb_eq in Hc. destruct c; [reflexivity | discriminate].
    + apply String.eqb_neq in Hn. destruct Hin as [Heq|Hin];
        [contradiction | now apply IH].
Qed.

Lemma len_table_empty (t : Table) : same_lengths 0 t = true -> len_table t = 0.
Proof.
  destruct t as [|[n c] t]; simpl; intros Hz; [reflexivity|].
  apply andb_prop in Hz as [Hc _]. now apply Nat.eqb_eq in Hc.
Qed.

Lemma df_fermi_empty (t : Table) :
  same_lengths 0 t = true ->
  In "time"%string (colnames t) -> In "id"%string (colnames t) ->
  In "name2"%string (colnames t) ->
  df_fermi t = inr [].
Proof.
  intros Hz Ht Hi Hn. unfold df_fermi.
  rewrite (len_table_empty t Hz).
  rewrite !table_getitem_empty by assumption.
  reflexivity.
Qed.

(** ** Properties of the specification *)

Lemma query_each_length (E : Env) h f qs w answers w' :
  query_each h f qs w = Return answers w' -> length answers = length qs.
Proof.
  revert w answers w'. induction qs as [|q qs IH]; intros w answers w'; simpl.
  - now intros [= <- _].
  - unfold bind. destruct (run_sync h q f w) as [t w1|e w1]; [|discriminate].
    destruct (query_each h f qs w1) as [ts w2|e w2] eqn:Hq; [|discriminate].
    intros [= <- _]. simpl. now rewrite (IH _ _ _ Hq).
Qed.

(** The loop over the catalogs, when every query is answered: the world
    it ends in is the one the queries themselves leave when run one
    after the other, and the store has grown by the frames of their
    answers, in order. *)
Lemma bulk_loop_session (E : Env) xml_filename h :
  archive_answers ->
  forall suf_c suf_t pre_c pre_t s,
    length pre_c = length pre_t ->
    length suf_c = length suf_t ->
    exists s' answers frames,
      bulk_loop (pre_c ++ suf_c) (pre_t ++ suf_t) xml_filename h
                (seq (length pre_c) (length suf_c)) s = Return tt s'
      /\ query_each h xml_filename
           (map (fun ct => fermiquery (fst ct) (snd ct)) (combine suf_c suf_t))
           (world s) = Return answers (world s')
      /\ Forall2 (fun t df => df_fermi t = inr df) answers frames
      /\ df_lc s' = df_lc s ++ concat frames
      /\ requests s' = requests s
                       ++ map (crossmatch xml_filename) (combine suf_c suf_t).
Proof.
  intros Hans. unfold bulk_loop.
  induction suf_c as [|c sc IH]; intros suf_t pre_c pre_t s Hpre Hsuf.
  - exists s, [], []. simpl. rewrite !app_nil_r.
    repeat split; constructor.
  - destruct suf_t as [|t st]; [discriminate|]. simpl in Hsuf.
    destruct (Hans h (fermiquery c t) xml_filename (world s))
      as (tb & w' & df & Hq & Hdf).
    simpl seq. simpl for_each.
    erewrite bind_return;
      [| eapply bulk_body_answer with (cat := c) (thr := t);
         [apply list_getitem_middle
         | rewrite Hpre; apply list_getitem_middle
         | exact Hq | exact Hdf]].
    specialize (IH st (pre_c ++ [c]) (pre_t ++ [t])
      {| world := w'; df_lc := df_lc s ++ df;
         requests := requests s ++ [crossmatch xml_filename (c, t)] |}).
    rewrite <- !app_assoc in IH. simpl in IH.
    rewrite !length_app in IH. simpl in IH.
    rewrite Nat.add_1_r in IH.
    destruct IH as (s' & answers & frames & Hrun & Hses & Hfr & Hst & Hreq);
      [lia | lia |].
    exists s', (tb :: answers), (df :: frames).
    split; [exact Hrun|]. split; [|split; [|split]].
    + simpl. unfold bind. rewrite Hq, Hses. reflexivity.
    + constructor; assumption.
    + rewrite Hst. simpl. now rewrite <- app_assoc.
    + rewrite Hreq. simpl. rewrite <- app_assoc. reflexivity.
Qed.

(** C1.  Let the registry lookup and every cross-match query be
    answered.  Called with N catalog names and N thresholds, the bulk
    retriever returns after exactly N calls of the archive, made one
    after the other in the order of the input list: the world it ends in
    is the one these N calls leave, and the store it returns holds the
    frames of their N answers in that order.  The text of the [i]-th
    call is the query text in which the name of the [i]-th catalog
    follows [FROM] and the rendering of the [i]-th threshold follows
    [cat.error_radius <]; the log of requests holds the registry lookup
    and then these N queries, each with the upload file. *)
Theorem C1_bulk_one_query_per_catalog (E : Env)
  (heasarc_cat : list string) (max_error_radius : list float)
  (xml_filename : string) (w : World) :
  registry_answers -> archive_answers ->
  length heasarc_cat = length max_error_radius ->
  let text (cat : string) (thr : float) : string :=
    (NL ++
     "            SELECT cat.name, cat.ra, cat.dec, cat.error_radius, cat.time,  mt.ID, mt.name" ++ NL ++
     "            FROM " ++ cat ++ " cat, tap_upload.mytable mt" ++ NL ++
     "            WHERE" ++ NL ++
     "            cat.error_radius < " ++ repr_float thr ++ " AND" ++ NL ++
     "            CONTAINS(POINT('ICRS',mt.ra,mt.dec),CIRCLE('ICRS',cat.ra,cat.dec,cat.error_radius))=1" ++ NL ++
     "             ")%string in
  let queries :=
    map (fun ct => text (fst ct) (snd ct))
        (combine heasarc_cat max_error_radius) in
  exists store s h hs w1 answers frames,
    HEASARC_get_lightcurves heasarc_cat max_error_radius xml_filename w
    = Return store s
    /\ regsearch w = Return (h :: hs) w1
    /\ query_each h xml_filename queries w1 = Return answers (world s)
    /\ length answers = length heasarc_cat
    /\ Forall2 (fun t df => df_fermi t = inr df) answers frames
    /\ store = concat frames
    /\ requests s = RegistrySearch
                    :: map (fun q => TapQuery q xml_filename) queries
    /\ length (tap_queries (requests s)) = length heasarc_cat
    /\ forall i cat thr,
         nth_error heasarc_cat i = Some cat ->
         nth_error max_error_radius i = Some thr ->
         nth_error (tap_queries (requests s)) i
         = Some (text cat thr, xml_filename).
Proof.
  intros Hreg Hans Hlen text queries.
  unfold HEASARC_get_lightcurves, HEASARC_get_lightcurves_from.
  destruct (Hreg w) as (h & hs & w' & Hr).
  destruct (bulk_loop_session E xml_filename h Hans heasarc_cat
              max_error_radius [] []
              {| world := w'; df_lc := MultiIndexDFObject_new;
                 requests := [RegistrySearch] |} eq_refl Hlen)
    as (s' & answers & frames & Hrun & Hses & Hfr & Hst & Hreq).
  simpl in Hrun, Hses, Hst, Hreq.
  assert (Hreq' : requests s' = RegistrySearch
                    :: map (fun q => TapQuery q xml_filename) queries).
  { rewrite Hreq. unfold queries. rewrite map_map. reflexivity. }
  exists (df_lc s'), s', h, hs, w', answers, frames.
  split; [|split; [exact Hr | split; [exact Hses | split; [|split;
    [exact Hfr | split; [exact Hst | split; [exact Hreq' | split]]]]]]].
  - unfold bind, call, initial, range; simpl. rewrite Hr; simpl.
    now rewrite Hrun.
  - rewrite (query_each_length E _ _ _ _ _ _ Hses).
    rewrite length_map, length_combine. lia.
  - rewrite Hreq; simpl. rewrite tap_queries_crossmatch.
    rewrite length_map, length_combine. lia.
  - intros i cat thr Hc Ht. rewrite Hreq; simpl.
    rewrite tap_queries_crossmatch.
    rewrite nth_error_map, (nth_error_combine _ _ _ _ _ Hc Ht).
    reflexivity.
Qed.

(** C2.  Evaluation at the failing input: the same uploaded source
    matched in the two catalogs FERMIGTRIG and SAXGRBMGRB gives two
    stored rows, and both carry the band ["Fermi GRB"]: the rows do not
    differ in band, and the band of the second does not name its
    catalog. *)
Theorem C2_two_catalogs_same_band :
  exists r1 r2 s,
    @HEASARC_get_lightcurves Demo.scripted
      ["FERMIGTRIG"%string; "SAXGRBMGRB"%string] [1%float; 3%float]
      "sources.xml"
      (Demo.with_tap [inr (Demo.one_match 55000.5);
                      inr (Demo.one_match 50123.75)])
    = Return [r1; r2] s
    /\ objectid (key r1) = objectid (key r2)
    /\ label (key r1) = label (key r2)
    /\ band (key r1) = "Fermi GRB"%string
    /\ band (key r2) = "Fermi GRB"%string
    /\ band (key r1) = band (key r2).
Proof.
  do 3 eexists. split; [vm_compute; reflexivity|].
  repeat split; reflexivity.
Qed.

(** C3.  Whatever the archive answers, every row in the record store of
    the bulk retriever and of the fallback retriever has flux 0.1 and
    err 0.1: in the store as it stands when the call returns or is left
    by an exception, and so in the store a call returns. *)
Theorem C3_flux_err_placeholder (E : Env)
  (heasarc_cat : list string) (max_error_radius : list float)
  (xml_filename : string)
  (coords_list : list (value * SkyCoord)) (labels_list : list string)
  (radius : Quantity) (mission_list : list string) (w : World) :
  let bulk :=
    HEASARC_get_lightcurves heasarc_cat max_error_radius xml_filename w in
  let fallback :=
    HEASARC_get_lightcurves_forloop coords_list labels_list radius
                                    mission_list w in
  let placeholders :=
    Forall (fun r => flux r = 0.1%float /\ err r = 0.1%float) in
  placeholders (df_lc (final bulk))
  /\ placeholders (df_lc (final fallback))
  /\ (forall store s, bulk = Return store s -> placeholders store)
  /\ (forall store s, fallback = Return store s -> placeholders store).
Proof.
  intros bulk fallback placeholders.
  assert (Hb : placeholders (df_lc (final bulk))).
  { eapply Forall_impl;
      [| apply (bulk_keeps heasarc_cat max_error_radius xml_filename
                  (initial w)); constructor].
    intros r [Hr _]; exact Hr. }
  assert (Hf : placeholders (df_lc (final fallback))).
  { apply (forloop_keeps coords_list labels_list radius mission_list
             (initial w)).
    constructor. }
  repeat split; try assumption; intros store s Hrun.
  - rewrite (bulk_returns_df_lc E _ _ _ _ _ _ Hrun).
    now rewrite Hrun in Hb.
  - rewrite (forloop_returns_df_lc E _ _ _ _ _ _ _ Hrun).
    now rewrite Hrun in Hf.
Qed.

(** C7.  A catalog whose query is answered by a table without rows
    (every column empty, the columns [time], [id] and [name2] among
    them) leaves the record store as it was: the loop body returns
    without raising, the store and its size are unchanged, and the loop
    goes on with the remaining catalogs. *)
Theorem C7_zero_rows_store_unchanged (E : Env)
  (heasarc_cat : list string) (max_error_radius : list float)
  (xml_filename : string) (heasarc_tap : TapService)
  (m : nat) (ms : list nat) (s : state)
  (cat : string) (thr : float) (t : Table) (w' : World) :
  list_getitem heasarc_cat (Z.of_nat m) = inr cat ->
  list_getitem max_error_radius (Z.of_nat m) = inr thr ->
  run_sync heasarc_tap (fermiquery cat thr) xml_filename (world s)
  = Return t w' ->
  same_lengths 0 t = true ->
  In "time"%string (colnames t) -> In "id"%string (colnames t) ->
  In "name2"%string (colnames t) ->
  let s' := after_call s (crossmatch xml_filename (cat, thr)) w' in
  bulk_body heasarc_cat max_error_radius xml_filename heasarc_tap m s
  = Return tt s'
  /\ df_lc s' = df_lc s
  /\ length (df_lc s') = length (df_lc s)
  /\ bulk_loop heasarc_cat max_error_radius xml_filename heasarc_tap
               (m :: ms) s
     = bulk_loop heasarc_cat max_error_radius xml_filename heasarc_tap ms s'.
Proof.
  intros Hc Ht Hq Hz H1 H2 H3 s'.
  assert (Hbody : bulk_body heasarc_cat max_error_radius xml_filename
                            heasarc_tap m s = Return tt s').
  { rewrite (bulk_body_answer _ _ _ _ _ _ _ _ _ _ _ Hc Ht Hq
               (df_fermi_empty t Hz H1 H2 H3)).
    unfold s', after_call. now rewrite app_nil_r. }
  repeat split; [exact Hbody|].
  unfold bulk_loop; simpl. now rewrite (bind_return _ _ _ _ _ Hbody).
Qed.

Lemma bind_assoc {S A B C} (c : M S A) (k : A -> M S B) (k' : B -> M S C) s :
  bind (bind c k) k' s = bind c (fun a => bind (k a) k') s.
Proof. unfold bind. destruct (c s); reflexivity. Qed.

Lemma is_AttributeError_false (e : exn) :
  e <> AttributeError -> is_AttributeError e = false.
Proof. destruct e; intros He; (reflexivity || contradiction). Qed.

Lemma forloop_body_success (E : Env) labels_list radius oid coord mcount
  mission s results w' t lab :
  query_region coord mission radius (world s) = Return results w' ->
  (if String.eqb mission "FERMIGTRIG"
   then time_mjd_of results "TRIGGER_TIME"
   else time_mjd_of results "TIME") = inr t ->
  list_getitem_value labels_list oid = inr lab ->
  forloop_body labels_list radius oid coord (mcount, mission) s
  = Return tt
      {| world := w';
         df_lc := df_lc s ++ [event oid lab mission t];
         requests := requests s ++ [ConeSearch coord mission radius] |}.
Proof.
  intros Hq Ht Hl. unfold forloop_body, try_except_AttributeError_pass.
  now rewrite (forloop_try_success _ _ _ _ _ _ _ _ _ _ Hq Ht Hl).
Qed.

(** C4.  For a query that is answered, the time of the appended record
    is the first cell of the column [TRIGGER_TIME] when the mission is
    ["FERMIGTRIG"], and the first cell of the column [TIME] for every
    other mission string. *)
Theorem C4_time_column_by_mission (E : Env)
  (labels_list : list string) (radius : Quantity) (oid : value)
  (coord : SkyCoord) (mcount : nat) (mission : string) (s : state)
  (results : Table) (w' : World) (v : value) (rest : Column) (t : float)
  (lab : string) :
  query_region coord mission radius (world s) = Return results w' ->
  astype_float v = inr t ->
  list_getitem_value labels_list oid = inr lab ->
  let s' := {| world := w';
               df_lc := df_lc s ++ [event oid lab mission t];
               requests := requests s ++ [ConeSearch coord mission radius] |}
  in
  (mission = "FERMIGTRIG"%string ->
   table_getitem results "TRIGGER_TIME" = inr (v :: rest) ->
   forloop_body labels_list radius oid coord (mcount, mission) s
   = Return tt s')
  /\ (mission <> "FERMIGTRIG"%string ->
      table_getitem results "TIME" = inr (v :: rest) ->
      forloop_body labels_list radius oid coord (mcount, mission) s
      = Return tt s').
Proof.
  intros Hq Hv Hl s'. split; intros Hm Hcol.
  - apply forloop_body_success with (results := results); try assumption.
    subst mission; simpl.
    now apply time_mjd_of_first with (v := v) (rest := rest).
  - apply forloop_body_success with (results := results); try assumption.
    apply String.eqb_neq in Hm. rewrite Hm.
    now apply time_mjd_of_first with (v := v) (rest := rest).
Qed.

(** C5.  Let the statements under [try:] raise [e] for the pair made of
    the coordinate [(oid, coord)] and the mission [mission], reached
    after the coordinates [cs1] and the missions [ms1].  No row has been
    appended for the pair.  If [e] is [AttributeError] the function goes
    on with the missions after [mission] and then with the coordinates
    after [(oid, coord)]; any other [e] leaves the function at once. *)
Theorem C5_fault_policy (E : Env)
  (labels_list : list string) (radius : Quantity)
  (ms1 : list string) (mission : string) (ms2 : list string)
  (cs1 : list (value * SkyCoord)) (oid : value) (coord : SkyCoord)
  (cs2 : list (value * SkyCoord)) (s0 s1 s2 s3 : state) (e : exn) :
  let mission_list := ms1 ++ mission :: ms2 in
  coords_loop labels_list radius mission_list cs1 s0 = Return tt s1 ->
  mission_loop labels_list radius oid coord ms1 s1 = Return tt s2 ->
  forloop_try labels_list radius oid coord mission s2 = Raise e s3 ->
  df_lc s3 = df_lc s2
  /\ (e = AttributeError ->
      HEASARC_get_lightcurves_forloop_from
        (cs1 ++ (oid, coord) :: cs2) labels_list radius mission_list s0
      = (mission_loop labels_list radius oid coord ms2 ;;;
         HEASARC_get_lightcurves_forloop_from
           cs2 labels_list radius mission_list) s3)
  /\ (e <> AttributeError ->
      HEASARC_get_lightcurves_forloop_from
        (cs1 ++ (oid, coord) :: cs2) labels_list radius mission_list s0
      = Raise e s3).
Proof.
  intros mission_list H1 H2 H3.
  split; [exact (forloop_try_raise _ _ _ _ _ _ _ _ H3)|].
  assert (Hpair : forall b,
    is_AttributeError e = b ->
    coords_loop labels_list radius mission_list
                (cs1 ++ (oid, coord) :: cs2) s0
    = if b
      then (mission_loop labels_list radius oid coord ms2 ;;;
            coords_loop labels_list radius mission_list cs2) s3
      else Raise e s3).
  { intros b Hb. rewrite coords_loop_app, (bind_return _ _ _ _ _ H1).
    unfold coords_loop at 1; simpl for_each. unfold bind at 1; simpl.
    unfold mission_list at 1.
    rewrite mission_loop_app, (bind_return _ _ _ _ _ H2).
    rewrite mission_loop_cons. unfold bind at 1.
    unfold try_except_AttributeError_pass. rewrite H3, Hb.
    destruct b; [|reflexivity].
    unfold bind, coords_loop.
    destruct (mission_loop labels_list radius oid coord ms2 s3); reflexivity. }
  unfold HEASARC_get_lightcurves_forloop_from. split; intros He.
  - unfold bind at 1. rewrite (Hpair true) by (subst e; reflexivity).
    unfold bind.
    destruct (mission_loop labels_list radius oid coord ms2 s3); reflexivity.
  - unfold bind. now rewrite (Hpair false (is_AttributeError_false e He)).
Qed.

(** C8 (as amended).  A query that is answered, whose time is found,
    and for which [labels_list[objectid]] exists appends exactly one
    record: its label is [labels_list[objectid]], the element of the
    labels list at the index given by the identifier, and its objectid
    is the identifier of the coordinate entry. *)
Theorem C8_label_indexed_by_objectid (E : Env)
  (labels_list : list string) (radius : Quantity) (oid : value)
  (coord : SkyCoord) (mcount : nat) (mission : string) (s : state)
  (results : Table) (w' : World) (t : float) (lab : string) :
  query_region coord mission radius (world s) = Return results w' ->
  (if String.eqb mission "FERMIGTRIG"
   then time_mjd_of results "TRIGGER_TIME"
   else time_mjd_of results "TIME") = inr t ->
  list_getitem_value labels_list oid = inr lab ->
  exists r s',
    forloop_body labels_list radius oid coord (mcount, mission) s
    = Return tt s'
    /\ df_lc s' = df_lc s ++ [r]
    /\ label (key r) = VStr lab
    /\ objectid (key r) = oid.
Proof.
  intros Hq Ht Hl. eexists; eexists. split.
  - exact (forloop_body_success E _ _ _ _ mcount _ _ _ _ _ _ Hq Ht Hl).
  - simpl. repeat split; reflexivity.
Qed.

(** C9.  When the answer has several rows, only the first cell of the
    time column is read: exactly one record is appended for the pair,
    with the time of the first row, whatever the rows after it hold. *)
Theorem C9_first_row_only (E : Env)
  (labels_list : list string) (radius : Quantity) (oid : value)
  (coord : SkyCoord) (mcount : nat) (mission : string) (s : state)
  (results : Table) (w' : World) (v : value) (rest : Column) (t : float)
  (lab : string) :
  query_region coord mission radius (world s) = Return results w' ->
  table_getitem results (if String.eqb mission "FERMIGTRIG"
                         then "TRIGGER_TIME" else "TIME")%string
  = inr (v :: rest) ->
  astype_float v = inr t ->
  list_getitem_value labels_list oid = inr lab ->
  exists s',
    forloop_body labels_list radius oid coord (mcount, mission) s
    = Return tt s'
    /\ df_lc s' = df_lc s ++ [event oid lab mission t]
    /\ length (df_lc s') = S (length (df_lc s)).
Proof.
  intros Hq Hcol Hv Hl.
  exists {| world := w';
            df_lc := df_lc s ++ [event oid lab mission t];
            requests := requests s ++ [ConeSearch coord mission radius] |}.
  split; [|split].
  - apply forloop_body_success with (results := results); try assumption.
    destruct (String.eqb mission "FERMIGTRIG");
      now apply time_mjd_of_first with (v := v) (rest := rest).
  - reflexivity.
  - simpl. rewrite length_app; simpl. lia.
Qed.


(** C10.  When the labels and the coordinates differ in number, the
    packager raises while the table is built: it ends with [ValueError]
    in the world it started from, so no file has been written. *)
Theorem C10_length_mismatch_raises_before_write (E : Env)
  (coords_list : list (value * SkyCoord)) (labels_list : list string)
  (sourcefilename : string) (w : World) :
  length labels_list <> length coords_list ->
  make_VOTable coords_list labels_list sourcefilename w = Raise ValueError w.
Proof.
  intros Hlen. unfold make_VOTable, bind, astropy_Table; simpl.
  rewrite !length_map, Nat.eqb_refl; simpl.
  destruct (Nat.eqb_spec (length coords_list) (length labels_list)) as [Heq|_];
    [congruence | reflexivity].
Qed.

(** ** The properties at concrete inputs *)

Lemma C1_witness :
  exists store s,
    @HEASARC_get_lightcurves DemoCount.counting Demo.catalogs Demo.thresholds
      "sources.xml" 0 = Return store s
    /\ @world DemoCount.counting s = 2
    /\ length store = 2
    /\ @tap_queries DemoCount.counting (requests s)
       = [(@fermiquery DemoCount.counting "FERMIGTRIG" 1,
           "sources.xml"%string);
          (@fermiquery DemoCount.counting "SAXGRBMGRB" 3,
           "sources.xml"%string)].
Proof.
  destruct (C1_bulk_one_query_per_catalog DemoCount.counting Demo.catalogs
              Demo.thresholds "sources.xml" 0)
    as (store & s & h & hs & w1 & answers & frames & Hrun & Hr & Hses & _
        & _ & _ & Hreq & _).
  - intros w. exists tt, [], w. reflexivity.
  - intros h q f w. eexists; eexists; eexists. split; reflexivity.
  - reflexivity.
  - exists store, s. split; [exact Hrun|].
    injection Hr as <- <- <-. simpl in Hses. injection Hses as _ Hw.
    pose proof (bulk_returns_df_lc DemoCount.counting _ _ _ _ _ _ Hrun)
      as Hstore.
    assert (Hs : s = final (@HEASARC_get_lightcurves DemoCount.counting
                              Demo.catalogs Demo.thresholds "sources.xml" 0))
      by (rewrite Hrun; reflexivity).
    split; [now symmetry|].
    split; [rewrite Hstore, Hs; reflexivity|].
    rewrite Hreq. reflexivity.
Defined.

Lemma C3_witness :
  Forall (fun r => flux r = 0.1%float /\ err r = 0.1%float)
         [event (VInt 0) "a" "FERMIGTRIG" 55000.5;
          event (VInt 0) "a" "SAXGRBMGRB" 50123.75].
Proof.
  pose (run := @HEASARC_get_lightcurves_forloop Demo.scripted
                 [(VInt 0, Demo.origin)] Demo.labels tt Demo.catalogs
                 (Demo.with_cone [inr Demo.two_rows; inr Demo.two_rows])).
  destruct (C3_flux_err_placeholder Demo.scripted Demo.catalogs
              Demo.thresholds "sources.xml" [(VInt 0, Demo.origin)]
              Demo.labels tt Demo.catalogs
              (Demo.with_cone [inr Demo.two_rows; inr Demo.two_rows]))
    as (_ & _ & _ & Hret).
  exact (Hret _ (final run) eq_refl).
Defined.

Lemma C7_witness :
  let s := @initial Demo.scripted (Demo.with_tap [inr Demo.no_match]) in
  @df_lc Demo.scripted
    (final (@bulk_body Demo.scripted Demo.catalogs Demo.thresholds
              "sources.xml" tt 0 s))
  = @df_lc Demo.scripted s.
Proof.
  intros s.
  destruct (C7_zero_rows_store_unchanged Demo.scripted Demo.catalogs
              Demo.thresholds "sources.xml" tt 0 [1] s
              "FERMIGTRIG" 1 Demo.no_match Demo.blank)
    as (Hbody & Hstore & _).
  - reflexivity.
  - reflexivity.
  - reflexivity.
  - reflexivity.
  - simpl; tauto.
  - simpl; tauto.
  - simpl; tauto.
  - rewrite Hbody. exact Hstore.
Defined.

Lemma C4_witness :
  let s := @initial Demo.scripted (Demo.with_cone [inr Demo.two_rows]) in
  @df_lc Demo.scripted
    (final (@forloop_body Demo.scripted Demo.labels tt (VInt 0) Demo.origin
              (0, "FERMIGTRIG"%string) s))
  = [event (VInt 0) "a" "FERMIGTRIG" 55000.5]
  /\ @df_lc Demo.scripted
       (final (@forloop_body Demo.scripted Demo.labels tt (VInt 0) Demo.origin
                 (1, "SAXGRBMGRB"%string) s))
     = [event (VInt 0) "a" "SAXGRBMGRB" 50123.75].
Proof.
  intros s. split.
  - rewrite (proj1 (C4_time_column_by_mission Demo.scripted Demo.labels tt
                      (VInt 0) Demo.origin 0 "FERMIGTRIG" s Demo.two_rows
                      Demo.blank (VFloat 55000.5) [VFloat 56000.25] 55000.5
                      "a" eq_refl eq_refl eq_refl) eq_refl eq_refl).
    reflexivity.
  - rewrite (proj2 (C4_time_column_by_mission Demo.scripted Demo.labels tt
                      (VInt 0) Demo.origin 1 "SAXGRBMGRB" s Demo.two_rows
                      Demo.blank (VFloat 50123.75) [VFloat 50200] 50123.75
                      "a" eq_refl eq_refl eq_refl)
               ltac:(discriminate) eq_refl).
    reflexivity.
Defined.

Lemma C5_witness :
  let run e :=
    @HEASARC_get_lightcurves_forloop Demo.scripted Demo.in_order Demo.labels
      tt Demo.missions (Demo.fifth_raises e) in
  (exists store s, run AttributeError = Return store s
                   /\ length store = 5
                   /\ length (@requests Demo.scripted s) = 6)
  /\ (exists s, run KeyError = Raise KeyError s
                /\ length (@df_lc Demo.scripted s) = 4
                /\ length (@requests Demo.scripted s) = 5).
Proof.
  intros run.
  pose (s0 e := @initial Demo.scripted (Demo.fifth_raises e)).
  pose (s1 e := final (@coords_loop Demo.scripted Demo.labels tt Demo.missions
                         [(VInt 0, Demo.origin)] (s0 e))).
  pose (s2 e := final (@mission_loop Demo.scripted Demo.labels tt (VInt 1)
                         Demo.pole ["FERMIGTRIG"%string] (s1 e))).
  pose (s3 e := final (@forloop_try Demo.scripted Demo.labels tt (VInt 1)
                         Demo.pole "SAXGRBMGRB" (s2 e))).
  split.
  - destruct (C5_fault_policy Demo.scripted Demo.labels tt
                ["FERMIGTRIG"%string] "SAXGRBMGRB" ["INTGRBCAT"%string]
                [(VInt 0, Demo.origin)] (VInt 1) Demo.pole []
                (s0 AttributeError) (s1 AttributeError) (s2 AttributeError)
                (s3 AttributeError) AttributeError
                eq_refl eq_refl eq_refl) as (_ & Hgo & _).
    specialize (Hgo eq_refl).
    unfold run, HEASARC_get_lightcurves_forloop.
    change (Demo.in_order) with ([(VInt 0, Demo.origin)]
                                 ++ (VInt 1, Demo.pole) :: []).
    change (Demo.missions) with (["FERMIGTRIG"%string]
                                 ++ "SAXGRBMGRB"%string
                                 :: ["INTGRBCAT"%string]).
    change (@initial Demo.scripted (Demo.fifth_raises AttributeError))
      with (s0 AttributeError).
    rewrite Hgo. do 2 eexists. split; [vm_compute; reflexivity|].
    split; reflexivity.
  - destruct (C5_fault_policy Demo.scripted Demo.labels tt
                ["FERMIGTRIG"%string] "SAXGRBMGRB" ["INTGRBCAT"%string]
                [(VInt 0, Demo.origin)] (VInt 1) Demo.pole []
                (s0 KeyError) (s1 KeyError) (s2 KeyError)
                (s3 KeyError) KeyError
                eq_refl eq_refl eq_refl) as (_ & _ & Hstop).
    specialize (Hstop ltac:(discriminate)).
    unfold run, HEASARC_get_lightcurves_forloop.
    change (Demo.in_order) with ([(VInt 0, Demo.origin)]
                                 ++ (VInt 1, Demo.pole) :: []).
    change (Demo.missions) with (["FERMIGTRIG"%string]
                                 ++ "SAXGRBMGRB"%string
                                 :: ["INTGRBCAT"%string]).
    change (@initial Demo.scripted (Demo.fifth_raises KeyError))
      with (s0 KeyError).
    rewrite Hstop. eexists. split; [reflexivity|]. split; reflexivity.
Defined.



Lemma C8_witness :
  let s := @initial Demo.scripted (Demo.with_cone [inr Demo.two_rows]) in
  exists r s',
    @forloop_body Demo.scripted Demo.labels tt (VInt (-1)) Demo.pole
      (0, "SAXGRBMGRB"%string) s = Return tt s'
    /\ @df_lc Demo.scripted s' = @df_lc Demo.scripted s ++ [r]
    /\ label (key r) = VStr "b"
    /\ objectid (key r) = VInt (-1).
Proof.
  intros s.
  exact (C8_label_indexed_by_objectid Demo.scripted Demo.labels tt
           (VInt (-1)) Demo.pole 0 "SAXGRBMGRB" s Demo.two_rows Demo.blank
           50123.75 "b" eq_refl eq_refl eq_refl).
Defined.

(** C8 as stated fails: with the identifiers 1 and 0 given in this
    order, the record of the first coordinate entry (identifier 1)
    carries the label ["b"], while the label paired with it by position
    is ["a"]. *)
Lemma C8_label_not_positional :
  exists r0 r1 s,
    @HEASARC_get_lightcurves_forloop Demo.scripted Demo.swapped Demo.labels
      tt ["SAXGRBMGRB"%string]
      (Demo.with_cone [inr Demo.two_rows; inr Demo.two_rows])
    = Return [r0; r1] s
    /\ nth_error Demo.swapped 0 = Some (objectid (key r0), Demo.origin)
    /\ nth_error Demo.labels 0 = Some "a"%string
    /\ label (key r0) = VStr "b"
    /\ label (key r0) <> VStr "a".
Proof.
  do 3 eexists. split; [vm_compute; reflexivity|].
  repeat split; try reflexivity. discriminate.
Qed.

Lemma C9_witness :
  let s := @initial Demo.scripted (Demo.with_cone [inr Demo.two_rows]) in
  exists s',
    @forloop_body Demo.scripted Demo.labels tt (VInt 0) Demo.origin
      (0, "FERMIGTRIG"%string) s = Return tt s'
    /\ @df_lc Demo.scripted s'
       = @df_lc Demo.scripted s ++ [event (VInt 0) "a" "FERMIGTRIG" 55000.5]
    /\ length (@df_lc Demo.scripted s') = 1.
Proof.
  intros s.
  exact (C9_first_row_only Demo.scripted Demo.labels tt (VInt 0) Demo.origin
           0 "FERMIGTRIG" s Demo.two_rows Demo.blank (VFloat 55000.5)
           [VFloat 56000.25] 55000.5 "a" eq_refl eq_refl eq_refl eq_refl).
Defined.

Lemma C10_witness :
  @make_VOTable Demo.scripted Demo.in_order ["a"%string] "sources.xml"
    Demo.blank
  = Raise ValueError Demo.blank.
Proof.
  apply (C10_length_mismatch_raises_before_write Demo.scripted).
  simpl; lia.
Defined.

(** * Further properties of the code *)

(** ** Tables and frames *)

Lemma table_getitem_inl (t : Table) (name : string) (e : exn) :
  table_getitem t name = inl e -> e = KeyError.
Proof.
  induction t as [|[n c] t IH]; simpl.
  - now intros [= <-].
  - destruct (String.eqb n name); [discriminate | exact IH].
Qed.

Lemma table_getitem_inr_In (t : Table) (name : string) (c : Column) :
  table_getitem t name = inr c -> In name (colnames t).
Proof.
  induction t as [|[n c0] t IH]; simpl; [discriminate|].
  destruct (String.eqb n name) eqn:Hn.
  - apply String.eqb_eq in Hn. now left.
  - intros Hc. right. now apply IH.
Qed.

Lemma zip6_columns (n : nat) fl er ti ob ba la :
  length fl = n -> length er = n -> length ti = n -> length ob = n ->
  length ba = n -> length la = n ->
  length (zip6 fl er ti ob ba la) = n
  /\ map c_time (zip6 fl er ti ob ba la) = ti
  /\ map c_objectid (zip6 fl er ti ob ba la) = ob
  /\ map c_label (zip6 fl er ti ob ba la) = la.
Proof.
  revert fl er ti ob ba la.
  induction n as [|n IH]; intros fl er ti ob ba la H1 H2 H3 H4 H5 H6.
  - destruct fl, ti, ob, la; try discriminate. simpl. auto.
  - destruct fl as [|f fl], er as [|e er], ti as [|t ti], ob as [|o ob],
      ba as [|b ba], la as [|l la]; try discriminate.
    simpl in *.
    destruct (IH fl er ti ob ba la) as (L & T & O & Lb); try lia.
    rewrite L, T, O, Lb. auto.
Qed.

Lemma list_getitem_end {A} (l : list A) :
  list_getitem l (Z.of_nat (length l)) = inl IndexError.
Proof.
  unfold list_getitem.
  replace (Z.of_nat (length l) <? 0)%Z with false
    by (symmetry; apply Z.ltb_ge; lia).
  replace (Z.of_nat (length l) <? Z.of_nat (length l))%Z with false
    by (symmetry; apply Z.ltb_ge; lia).
  now rewrite andb_false_r.
Qed.

(** ** The bulk retriever under faults *)

Section BulkFaults.
Context {E : Env}.

Lemma bulk_body_requests heasarc_cat max_error_radius xml_filename h m s
  cat thr :
  list_getitem heasarc_cat (Z.of_nat m) = inr cat ->
  list_getitem max_error_radius (Z.of_nat m) = inr thr ->
  requests (final (bulk_body heasarc_cat max_error_radius xml_filename h m s))
  = requests s ++ [crossmatch xml_filename (cat, thr)].
Proof.
  intros Hc Ht. unfold bulk_body, bind, call. rewrite Hc, Ht; simpl.
  destruct (run_sync h (fermiquery cat thr) xml_filename (world s))
    as [t w'|e w']; simpl; [|reflexivity].
  destruct (df_fermi t); reflexivity.
Qed.

Lemma bulk_body_no_threshold heasarc_cat max_error_radius xml_filename h m s
  cat e :
  list_getitem heasarc_cat (Z.of_nat m) = inr cat ->
  list_getitem max_error_radius (Z.of_nat m) = inl e ->
  bulk_body heasarc_cat max_error_radius xml_filename h m s = Raise e s.
Proof.
  intros Hc Ht. unfold bulk_body, bind. now rewrite Hc, Ht.
Qed.

Lemma bulk_loop_prefix xml_filename h :
  forall suf_c suf_t pre_c pre_t s,
    length pre_c = length pre_t ->
    exists p,
      let r := bulk_loop (pre_c ++ suf_c) (pre_t ++ suf_t) xml_filename h
                         (seq (length pre_c) (length suf_c)) s in
      requests (final r) = requests s ++ p
      /\ initial_segment p (map (crossmatch xml_filename)
                                (combine suf_c suf_t))
      /\ (returned r = true ->
          p = map (crossmatch xml_filename) (combine suf_c suf_t)
          /\ length suf_c <= length suf_t).
Proof.
  unfold bulk_loop.
  induction suf_c as [|c sc IH]; intros suf_t pre_c pre_t s Hpre.
  - exists []. simpl. rewrite app_nil_r.
    split; [reflexivity | split; [exists []; reflexivity | intros _; split; [reflexivity | lia]]].
  - simpl seq. simpl for_each. unfold bind.
    destruct suf_t as [|t st].
    + rewrite (bulk_body_no_threshold _ _ _ _ _ _ c IndexError);
        [| apply list_getitem_middle
         | rewrite app_nil_r, Hpre; apply list_getitem_end].
      exists []. simpl. rewrite app_nil_r.
      split; [reflexivity | split; [exists []; reflexivity | discriminate]].
    + assert (Ht : list_getitem (pre_t ++ t :: st)
                                (Z.of_nat (length pre_c)) = inr t)
        by (rewrite Hpre; apply list_getitem_middle).
      pose proof (bulk_body_requests (pre_c ++ c :: sc) (pre_t ++ t :: st)
                    xml_filename h (length pre_c) s c t
                    (list_getitem_middle pre_c c sc) Ht) as Hreq.
      destruct (bulk_body (pre_c ++ c :: sc) (pre_t ++ t :: st) xml_filename
                          h (length pre_c) s) as [[] s1|e s1];
        simpl in Hreq.
      * specialize (IH st (pre_c ++ [c]) (pre_t ++ [t]) s1).
        rewrite <- !app_assoc in IH. simpl in IH.
        rewrite !length_app in IH. simpl in IH.
        rewrite Nat.add_1_r in IH.
        destruct IH as (p & Hp & (q & Hq) & Hret); [lia|].
        exists (crossmatch xml_filename (c, t) :: p). simpl.
        split; [| split].
        -- rewrite Hp, Hreq, <- app_assoc. reflexivity.
        -- exists q. now rewrite Hq.
        -- intros H. destruct (Hret H) as [-> Hl]. split; [reflexivity | lia].
      * exists [crossmatch xml_filename (c, t)]. simpl.
        split; [exact Hreq | split; [| discriminate]].
        exists (map (crossmatch xml_filename) (combine sc st)). reflexivity.
Qed.

End BulkFaults.

Lemma bulk_loop_stops (E : Env) xml_filename h :
  forall k suf_c suf_t pre_c pre_t s answers wk cat thr e w',
    length pre_c = length pre_t ->
    query_each h xml_filename
      (map (fun ct => fermiquery (fst ct) (snd ct))
           (firstn k (combine suf_c suf_t)))
      (world s) = Return answers wk ->
    Forall (fun t => exists df, df_fermi t = inr df) answers ->
    nth_error (combine suf_c suf_t) k = Some (cat, thr) ->
    run_sync h (fermiquery cat thr) xml_filename wk = Raise e w' ->
    exists s',
      bulk_loop (pre_c ++ suf_c) (pre_t ++ suf_t) xml_filename h
                (seq (length pre_c) (length suf_c)) s = Raise e s'
      /\ world s' = w'
      /\ requests s' = requests s
                       ++ map (crossmatch xml_filename)
                              (firstn (S k) (combine suf_c suf_t)).
Proof.
  unfold bulk_loop.
  induction k as [|k IH];
    intros suf_c suf_t pre_c pre_t s answers wk cat thr e w' Hpre Hses Huse
           Hnth Hq;
    destruct suf_c as [|c sc]; try discriminate;
    destruct suf_t as [|t st]; try discriminate;
    simpl in Hses, Hnth; simpl seq; simpl for_each.
  - injection Hnth as <- <-. injection Hses as _ <-.
    exists (after_call s (crossmatch xml_filename (c, t)) w').
    split; [|split; reflexivity].
    unfold bind at 1. unfold bulk_body, bind, call.
    rewrite list_getitem_middle.
    replace (length pre_c) with (length pre_t) by auto.
    rewrite list_getitem_middle. simpl. now rewrite Hq.
  - unfold bind in Hses.
    destruct (run_sync h (fermiquery c t) xml_filename (world s))
      as [tb w1|e1 w1] eqn:Hq0; [|discriminate].
    destruct (query_each h xml_filename _ w1) as [ts w2|e2 w2] eqn:Hrest;
      [|discriminate].
    unfold ret in Hses. injection Hses as Ha Hw. subst answers wk.
    inversion Huse as [|tb' ts' (df & Hdf) Huse']; subst.
    erewrite bind_return;
      [| eapply bulk_body_answer with (cat := c) (thr := t);
         [apply list_getitem_middle
         | rewrite Hpre; apply list_getitem_middle
         | exact Hq0 | exact Hdf]].
    specialize (IH sc st (pre_c ++ [c]) (pre_t ++ [t])
      {| world := w1; df_lc := df_lc s ++ df;
         requests := requests s ++ [crossmatch xml_filename (c, t)] |}
      ts w2 cat thr e w').
    rewrite <- !app_assoc in IH. simpl in IH.
    rewrite !length_app in IH. simpl in IH.
    rewrite Nat.add_1_r in IH.
    destruct IH as (s' & Hrun & Hw & Hreq); try assumption; [lia|].
    exists s'. split; [exact Hrun | split; [exact Hw|]].
    rewrite Hreq, <- app_assoc. reflexivity.
Qed.

(** X1.  Whatever the registry and the archive do, the requests the bulk
    retriever has sent when it returns or raises are an initial segment
    of: the registry lookup, then the cross-match query of the first
    catalog with the first threshold, of the second with the second, and
    so on.  And nothing is sent after a failure: if the first [k]
    queries are answered with tables the frame can be built from and the
    next query raises, the call raises that exception in the world that
    query left, and the requests sent end with that query. *)
Theorem X1_bulk_requests_initial_segment (E : Env)
  (heasarc_cat : list string) (max_error_radius : list float)
  (xml_filename : string) (w : World) :
  let r := HEASARC_get_lightcurves heasarc_cat max_error_radius
                                   xml_filename w in
  let pairs := combine heasarc_cat max_error_radius in
  initial_segment (requests (final r))
                  (RegistrySearch :: map (crossmatch xml_filename) pairs)
  /\ forall h hs w1 k answers wk cat thr e w',
       regsearch w = Return (h :: hs) w1 ->
       query_each h xml_filename
         (map (fun ct => fermiquery (fst ct) (snd ct)) (firstn k pairs))
         w1 = Return answers wk ->
       Forall (fun t => exists df, df_fermi t = inr df) answers ->
       nth_error pairs k = Some (cat, thr) ->
       run_sync h (fermiquery cat thr) xml_filename wk = Raise e w' ->
       exists s,
         r = Raise e s
         /\ world s = w'
         /\ requests s = RegistrySearch
                         :: map (crossmatch xml_filename)
                                (firstn (S k) pairs).
Proof.
  intros r pairs. split.
  - unfold r, pairs.
    unfold HEASARC_get_lightcurves, HEASARC_get_lightcurves_from, bind, call,
      initial, range; simpl.
    destruct (regsearch w) as [sv w1|e w1]; simpl;
      [| eexists; reflexivity].
    destruct (list_getitem sv 0) as [e|h]; simpl; [eexists; reflexivity|].
    destruct (bulk_loop_prefix xml_filename h heasarc_cat max_error_radius
                [] [] {| world := w1; df_lc := MultiIndexDFObject_new;
                         requests := [RegistrySearch] |} eq_refl)
      as (p & Hp & (q & Hq) & _).
    simpl in Hp, Hq.
    destruct (bulk_loop heasarc_cat max_error_radius xml_filename h
                (seq 0 (length heasarc_cat)) _) as [[] s1|e s1];
      simpl in *; rewrite Hp; exists q; simpl; now rewrite Hq.
  - intros h hs w1 k answers wk cat thr e w' Hr Hses Huse Hnth Hq.
    destruct (bulk_loop_stops E xml_filename h k heasarc_cat max_error_radius
                [] [] {| world := w1; df_lc := MultiIndexDFObject_new;
                         requests := [RegistrySearch] |}
                answers wk cat thr e w' eq_refl Hses Huse Hnth Hq)
      as (s' & Hrun & Hw & Hreq).
    simpl in Hrun, Hreq.
    exists s'. split; [|split; [exact Hw | exact Hreq]].
    unfold r, HEASARC_get_lightcurves, HEASARC_get_lightcurves_from, bind,
      call, initial, range; simpl.
    rewrite Hr; simpl. now rewrite Hrun.
Qed.

(** X2.  The bulk retriever returns only after it has queried every
    catalog: if it returns, there were at least as many thresholds as
    catalogs, the requests sent are the registry lookup and one query
    per catalog in list order, and the value returned is the store
    [df_lc]. *)
Theorem X2_bulk_returns_after_all_queries (E : Env)
  (heasarc_cat : list string) (max_error_radius : list float)
  (xml_filename : string) (w : World) (store : MultiIndexDFObject)
  (s : state) :
  HEASARC_get_lightcurves heasarc_cat max_error_radius xml_filename w
  = Return store s ->
  length heasarc_cat <= length max_error_radius
  /\ requests s = RegistrySearch
                  :: map (crossmatch xml_filename)
                         (combine heasarc_cat max_error_radius)
  /\ length (tap_queries (requests s)) = length heasarc_cat
  /\ store = df_lc s.
Proof.
  intros Hrun.
  pose proof (bulk_returns_df_lc E _ _ _ _ _ _ Hrun) as Hstore.
  revert Hrun.
  unfold HEASARC_get_lightcurves, HEASARC_get_lightcurves_from, bind, call,
    initial, range; simpl.
  destruct (regsearch w) as [sv w1|e w1]; simpl; [|discriminate].
  destruct (list_getitem sv 0) as [e|h]; simpl; [discriminate|].
  destruct (bulk_loop_prefix xml_filename h heasarc_cat max_error_radius
              [] [] {| world := w1; df_lc := MultiIndexDFObject_new;
                       requests := [RegistrySearch] |} eq_refl)
    as (p & Hp & _ & Hret).
  simpl in Hp, Hret.
  destruct (bulk_loop heasarc_cat max_error_radius xml_filename h
              (seq 0 (length heasarc_cat)) _) as [[] s1|e s1];
    simpl in *; [|discriminate].
  intros [= _ <-]. destruct (Hret eq_refl) as [-> Hl].
  repeat split; try assumption.
  rewrite Hp; simpl. rewrite tap_queries_crossmatch.
  rewrite length_map, length_combine. lia.
Qed.

Lemma bind_raise_state {S A B} (c : M S A) (k : A -> M S B) s e s' :
  c s = Raise e s' -> bind c k s = Raise e s'.
Proof. intros Hc; unfold bind; now rewrite Hc. Qed.

Lemma bulk_loop_short_thresholds (E : Env) xml_filename h :
  archive_answers ->
  forall suf_c suf_t pre_c pre_t s,
    length pre_c = length pre_t ->
    length suf_t < length suf_c ->
    exists s',
      bulk_loop (pre_c ++ suf_c) (pre_t ++ suf_t) xml_filename h
                (seq (length pre_c) (length suf_c)) s = Raise IndexError s'
      /\ requests s' = requests s
                       ++ map (crossmatch xml_filename) (combine suf_c suf_t).
Proof.
  intros Hans. unfold bulk_loop.
  induction suf_c as [|c sc IH]; intros suf_t pre_c pre_t s Hpre Hlt;
    [simpl in Hlt; lia|].
  simpl seq. simpl for_each.
  destruct suf_t as [|t st].
  - exists s. split; [| simpl; now rewrite app_nil_r].
    apply bind_raise_state.
    apply bulk_body_no_threshold with (cat := c);
      [apply list_getitem_middle
      | rewrite app_nil_r, Hpre; apply list_getitem_end].
  - destruct (Hans h (fermiquery c t) xml_filename (world s))
      as (tb & w' & df & Hq & Hdf).
    erewrite bind_return;
      [| eapply bulk_body_answer with (cat := c) (thr := t);
         [apply list_getitem_middle
         | rewrite Hpre; apply list_getitem_middle
         | exact Hq | exact Hdf]].
    specialize (IH st (pre_c ++ [c]) (pre_t ++ [t])
      {| world := w'; df_lc := df_lc s ++ df;
         requests := requests s ++ [crossmatch xml_filename (c, t)] |}).
    rewrite <- !app_assoc in IH. simpl in IH.
    rewrite !length_app in IH. simpl in IH.
    rewrite Nat.add_1_r in IH.
    destruct IH as (s' & Hrun & Hreq); [lia | simpl in Hlt; lia |].
    exists s'. split; [exact Hrun|].
    rewrite Hreq. simpl. rewrite <- app_assoc. reflexivity.
Qed.

(** X3.  With fewer thresholds than catalogs (and a registry and an
    archive that answer), the bulk retriever queries the catalogs that
    have a threshold, in order, and then raises [IndexError] at the
    first catalog without one: exactly as many queries are sent as there
    are thresholds. *)
Theorem X3_bulk_too_few_thresholds (E : Env)
  (heasarc_cat : list string) (max_error_radius : list float)
  (xml_filename : string) (w : World) :
  registry_answers -> archive_answers ->
  length max_error_radius < length heasarc_cat ->
  exists s,
    HEASARC_get_lightcurves heasarc_cat max_error_radius xml_filename w
    = Raise IndexError s
    /\ requests s = RegistrySearch
                    :: map (crossmatch xml_filename)
                           (combine heasarc_cat max_error_radius)
    /\ length (tap_queries (requests s)) = length max_error_radius.
Proof.
  intros Hreg Hans Hlt.
  unfold HEASARC_get_lightcurves, HEASARC_get_lightcurves_from.
  destruct (Hreg w) as (h & hs & w' & Hr).
  destruct (bulk_loop_short_thresholds E xml_filename h Hans heasarc_cat
              max_error_radius [] []
              {| world := w'; df_lc := MultiIndexDFObject_new;
                 requests := [RegistrySearch] |} eq_refl Hlt)
    as (s' & Hrun & Hreq).
  simpl in Hrun, Hreq.
  exists s'. split; [|split; [exact Hreq|]].
  - unfold bind, call, initial, range; simpl. rewrite Hr; simpl.
    now rewrite Hrun.
  - rewrite Hreq; simpl. rewrite tap_queries_crossmatch.
    rewrite length_map, length_combine. lia.
Qed.

(** X4.  Whatever the catalogs and the answers, every row in the store
    of the bulk retriever has the band ["Fermi GRB"], when the call
    returns and when it raises. *)
Theorem X4_bulk_band_is_Fermi_GRB (E : Env)
  (heasarc_cat : list string) (max_error_radius : list float)
  (xml_filename : string) (w : World) :
  Forall (fun r => band (key r) = "Fermi GRB"%string)
         (df_lc (final (HEASARC_get_lightcurves heasarc_cat max_error_radius
                                                xml_filename w))).
Proof.
  eapply Forall_impl;
    [| apply (bulk_keeps heasarc_cat max_error_radius xml_filename
                (initial w)); constructor].
  intros r [_ Hb]; exact Hb.
Qed.

(** X5.  When a cross-match answer carries the columns [time], [id] and
    [name2], each as long as the table, the loop body appends one row
    per row of the answer, in the order of the answer: the times of the
    new rows are the column [time], their objectids the column [id],
    their labels the column [name2]. *)
Theorem X5_bulk_rows_follow_answer (E : Env)
  (heasarc_cat : list string) (max_error_radius : list float)
  (xml_filename : string) (heasarc_tap : TapService) (m : nat) (s : state)
  (cat : string) (thr : float) (t : Table) (w' : World)
  (ti ob la : Column) :
  list_getitem heasarc_cat (Z.of_nat m) = inr cat ->
  list_getitem max_error_radius (Z.of_nat m) = inr thr ->
  run_sync heasarc_tap (fermiquery cat thr) xml_filename (world s)
  = Return t w' ->
  table_getitem t "time" = inr ti -> length ti = len_table t ->
  table_getitem t "id" = inr ob -> length ob = len_table t ->
  table_getitem t "name2" = inr la -> length la = len_table t ->
  exists df,
    bulk_body heasarc_cat max_error_radius xml_filename heasarc_tap m s
    = Return tt {| world := w'; df_lc := df_lc s ++ df;
                   requests := requests s
                               ++ [crossmatch xml_filename (cat, thr)] |}
    /\ length df = len_table t
    /\ map (fun r => time (key r)) df = ti
    /\ map (fun r => objectid (key r)) df = ob
    /\ map (fun r => label (key r)) df = la.
Proof.
  intros Hc Ht Hq Hti Lti Hob Lob Hla Lla.
  destruct (zip6_columns (len_table t)
              (repeat placeholder (len_table t))
              (repeat placeholder (len_table t)) ti ob
              (repeat "Fermi GRB"%string (len_table t)) la)
    as (L & T & O & Lb); rewrite ?repeat_length; try assumption; try reflexivity.
  assert (Hdf : df_fermi t
                = inr (set_index
                         (zip6 (repeat placeholder (len_table t))
                               (repeat placeholder (len_table t)) ti ob
                               (repeat "Fermi GRB"%string (len_table t)) la))).
  { unfold df_fermi, pd_DataFrame. rewrite Hti, Hob, Hla.
    rewrite !repeat_length, Lti, Lob, Lla, Nat.eqb_refl. reflexivity. }
  eexists. split;
    [exact (bulk_body_answer _ _ _ _ _ _ _ _ _ _ _ Hc Ht Hq Hdf)|].
  unfold set_index. rewrite length_map, !map_map. simpl.
  repeat split; assumption.
Qed.

(** X6.  When a cross-match answer lacks one of the columns [time],
    [id], [name2], the loop body raises [KeyError] after the query was
    sent and appends nothing. *)
Theorem X6_bulk_missing_column_KeyError (E : Env)
  (heasarc_cat : list string) (max_error_radius : list float)
  (xml_filename : string) (heasarc_tap : TapService) (m : nat) (s : state)
  (cat : string) (thr : float) (t : Table) (w' : World) :
  list_getitem heasarc_cat (Z.of_nat m) = inr cat ->
  list_getitem max_error_radius (Z.of_nat m) = inr thr ->
  run_sync heasarc_tap (fermiquery cat thr) xml_filename (world s)
  = Return t w' ->
  ~ (In "time"%string (colnames t) /\ In "id"%string (colnames t)
     /\ In "name2"%string (colnames t)) ->
  bulk_body heasarc_cat max_error_radius xml_filename heasarc_tap m s
  = Raise KeyError (after_call s (crossmatch xml_filename (cat, thr)) w').
Proof.
  intros Hc Ht Hq Hmiss.
  assert (Hdf : df_fermi t = inl KeyError).
  { unfold df_fermi.
    destruct (table_getitem t "time") as [e|ti] eqn:H1;
      [now rewrite (table_getitem_inl _ _ _ H1)|].
    destruct (table_getitem t "id") as [e|ob] eqn:H2;
      [now rewrite (table_getitem_inl _ _ _ H2)|].
    destruct (table_getitem t "name2") as [e|la] eqn:H3;
      [now rewrite (table_getitem_inl _ _ _ H3)|].
    exfalso. apply Hmiss.
    repeat split; eapply table_getitem_inr_In; eassumption. }
  unfold bulk_body, bind, call. rewrite Hc, Ht; simpl.
  now rewrite Hq, Hdf.
Qed.

(** X7.  The bulk retriever has no handler: when the query for a catalog
    raises, whatever the exception ([AttributeError] included), the loop
    is left with that exception at once, nothing is appended, and the
    remaining catalogs are not queried. *)
Theorem X7_bulk_fault_aborts (E : Env)
  (heasarc_cat : list string) (max_error_radius : list float)
  (xml_filename : string) (heasarc_tap : TapService) (m : nat)
  (ms : list nat) (s : state) (cat : string) (thr : float) (e : exn)
  (w' : World) :
  list_getitem heasarc_cat (Z.of_nat m) = inr cat ->
  list_getitem max_error_radius (Z.of_nat m) = inr thr ->
  run_sync heasarc_tap (fermiquery cat thr) xml_filename (world s)
  = Raise e w' ->
  bulk_loop heasarc_cat max_error_radius xml_filename heasarc_tap (m :: ms) s
  = Raise e (after_call s (crossmatch xml_filename (cat, thr)) w').
Proof.
  intros Hc Ht Hq. unfold bulk_loop; simpl.
  unfold bind at 1. unfold bulk_body, bind, call. rewrite Hc, Ht; simpl.
  now rewrite Hq.
Qed.

(** X8.  Before any catalog is queried the bulk retriever looks the
    service up in the registry and takes the first one found: an empty
    registry answer raises [IndexError], a failing lookup raises its own
    exception, and in both cases no cross-match query has been sent and
    the store is empty. *)
Theorem X8_bulk_registry_failure (E : Env)
  (heasarc_cat : list string) (max_error_radius : list float)
  (xml_filename : string) (w w' : World) :
  (regsearch w = Return [] w' ->
   HEASARC_get_lightcurves heasarc_cat max_error_radius xml_filename w
   = Raise IndexError {| world := w'; df_lc := [];
                         requests := [RegistrySearch] |})
  /\ (forall e, regsearch w = Raise e w' ->
      HEASARC_get_lightcurves heasarc_cat max_error_radius xml_filename w
      = Raise e {| world := w'; df_lc := [];
                   requests := [RegistrySearch] |}).
Proof.
  split; [intros Hr | intros e Hr];
    unfold HEASARC_get_lightcurves, HEASARC_get_lightcurves_from, bind, call,
      initial; simpl; now rewrite Hr.
Qed.

(** ** The fallback retriever: requests and provenance of the rows *)

Section FallbackShape.
Context {E : Env}.

(** What a loop does to the log and to the store, from what its body
    does: the requests sent are an initial segment of those of all the
    iterations (all of them when the loop returns), every new row comes
    from an iteration, and no more rows are added than requests sent. *)
Lemma for_each_shape {A} (body : A -> M state unit) (g : A -> list request)
  (Q : A -> Row -> Prop) :
  (forall a s, exists p rows,
      requests (final (body a s)) = requests s ++ p
      /\ df_lc (final (body a s)) = df_lc s ++ rows
      /\ initial_segment p (g a)
      /\ (returned (body a s) = true -> p = g a)
      /\ length rows <= length p
      /\ Forall (Q a) rows) ->
  forall l s, exists p rows,
      requests (final (for_each body l s)) = requests s ++ p
      /\ df_lc (final (for_each body l s)) = df_lc s ++ rows
      /\ initial_segment p (flat_map g l)
      /\ (returned (for_each body l s) = true -> p = flat_map g l)
      /\ length rows <= length p
      /\ Forall (fun r => exists a, In a l /\ Q a r) rows.
Proof.
  intros Hbody. induction l as [|a l IH]; intros s.
  - exists [], []. simpl. rewrite !app_nil_r.
    repeat split; auto. exists []; reflexivity.
  - destruct (Hbody a s) as (p1 & rows1 & Hp1 & Hr1 & (q1 & Hq1) & Hret1
                             & Hlen1 & HQ1).
    simpl for_each. unfold bind.
    destruct (body a s) as [[] s1|e s1]; simpl in Hp1, Hr1, Hret1.
    + specialize (Hret1 eq_refl). subst p1.
      destruct (IH s1) as (p2 & rows2 & Hp2 & Hr2 & (q2 & Hq2) & Hret2
                           & Hlen2 & HQ2).
      exists (g a ++ p2), (rows1 ++ rows2).
      split; [now rewrite Hp2, Hp1, app_assoc|].
      split; [now rewrite Hr2, Hr1, app_assoc|].
      split; [exists q2; simpl; now rewrite Hq2, app_assoc|].
      split; [intros H; simpl; now rewrite (Hret2 H)|].
      split; [rewrite !length_app; lia|].
      apply Forall_app; split.
      * eapply Forall_impl; [|exact HQ1].
        intros r Hr. exists a. split; [now left | exact Hr].
      * eapply Forall_impl; [|exact HQ2].
        intros r (a' & Hin & Hr). exists a'. split; [now right | exact Hr].
    + exists p1, rows1. simpl.
      split; [exact Hp1|]. split; [exact Hr1|].
      split; [exists (q1 ++ flat_map g l); now rewrite app_assoc, <- Hq1|].
      split; [discriminate|]. split; [exact Hlen1|].
      eapply Forall_impl; [|exact HQ1].
      intros r Hr. exists a. split; [now left | exact Hr].
Qed.

(** One pass through the [try] statement: the query is always sent, and
    either nothing is appended or the single record of the pair is. *)
Lemma forloop_pair_shape labels_list radius oid coord mission s :
  let r := try_except_AttributeError_pass
             (forloop_try labels_list radius oid coord mission) s in
  exists p rows,
    requests (final r) = requests s ++ p
    /\ df_lc (final r) = df_lc s ++ rows
    /\ initial_segment p [ConeSearch coord mission radius]
    /\ (returned r = true -> p = [ConeSearch coord mission radius])
    /\ length rows <= length p
    /\ Forall (fun row =>
                 objectid (key row) = oid /\ band (key row) = mission
                 /\ exists lab, list_getitem_value labels_list oid = inr lab
                                /\ label (key row) = VStr lab) rows.
Proof.
  unfold try_except_AttributeError_pass, forloop_try, bind, call.
  exists [ConeSearch coord mission radius].
  destruct (query_region coord mission radius (world s)) as [t w|e0 w]; simpl.
  - destruct (if String.eqb mission "FERMIGTRIG"
              then time_mjd_of t "TRIGGER_TIME"
              else time_mjd_of t "TIME") as [e1|tm]; simpl.
    + exists []. rewrite app_nil_r.
      destruct (is_AttributeError e1); simpl;
        repeat split; auto; exists []; reflexivity.
    + destruct (list_getitem_value labels_list oid) as [e2|lab] eqn:Hl; simpl.
      * exists []. rewrite app_nil_r.
        destruct (is_AttributeError e2); simpl;
          repeat split; auto; exists []; reflexivity.
      * exists [event oid lab mission tm]. simpl.
        repeat split; auto; [exists []; reflexivity|].
        constructor; [|constructor]. simpl. repeat split.
        exists lab. split; [reflexivity | reflexivity].
  - exists []. rewrite app_nil_r.
    destruct (is_AttributeError e0); simpl;
      repeat split; auto; exists []; reflexivity.
Qed.

Lemma flat_map_singleton {A B} (f : A -> B) l :
  flat_map (fun a => [f a]) l = map f l.
Proof. induction l; simpl; [|rewrite IHl]; reflexivity. Qed.

Lemma coords_loop_shape labels_list radius mission_list coords_list s :
  let r := coords_loop labels_list radius mission_list coords_list s in
  exists p rows,
    requests (final r) = requests s ++ p
    /\ df_lc (final r) = df_lc s ++ rows
    /\ initial_segment p (cone_requests radius mission_list coords_list)
    /\ (returned r = true ->
        p = cone_requests radius mission_list coords_list)
    /\ length rows <= length p
    /\ Forall (fun row =>
                 exists oc, In oc coords_list
                   /\ exists mission, In mission mission_list
                   /\ objectid (key row) = fst oc
                   /\ band (key row) = mission
                   /\ exists lab,
                        list_getitem_value labels_list (fst oc) = inr lab
                        /\ label (key row) = VStr lab) rows.
Proof.
  unfold coords_loop, cone_requests.
  apply (for_each_shape
           (fun oc => mission_loop labels_list radius (fst oc) (snd oc)
                                   mission_list)
           (fun oc => map (fun mission => ConeSearch (snd oc) mission radius)
                          mission_list)
           (fun oc row =>
              exists mission, In mission mission_list
                /\ objectid (key row) = fst oc
                /\ band (key row) = mission
                /\ exists lab,
                     list_getitem_value labels_list (fst oc) = inr lab
                     /\ label (key row) = VStr lab)).
  intros [oid coord] s0. simpl fst; simpl snd.
  rewrite mission_loop_unfold.
  rewrite <- (flat_map_singleton
                (fun mission => ConeSearch coord mission radius)).
  apply (for_each_shape
           (fun mission =>
              try_except_AttributeError_pass
                (forloop_try labels_list radius oid coord mission))
           (fun mission => [ConeSearch coord mission radius])
           (fun mission row =>
              objectid (key row) = oid /\ band (key row) = mission
              /\ exists lab, list_getitem_value labels_list oid = inr lab
                             /\ label (key row) = VStr lab)).
  intros mission s1. apply forloop_pair_shape.
Qed.

Lemma length_cone_requests radius mission_list coords_list :
  length (cone_requests radius mission_list coords_list)
  = length coords_list * length mission_list.
Proof.
  unfold cone_requests. induction coords_list as [|oc l IH]; simpl;
    [reflexivity|].
  now rewrite length_app, length_map, IH.
Qed.

End FallbackShape.

Lemma forloop_final (E : Env) coords_list labels_list radius mission_list w :
  final (HEASARC_get_lightcurves_forloop coords_list labels_list radius
                                         mission_list w)
  = final (coords_loop labels_list radius mission_list coords_list
                       (initial w))
  /\ returned (HEASARC_get_lightcurves_forloop coords_list labels_list radius
                                               mission_list w)
     = returned (coords_loop labels_list radius mission_list coords_list
                             (initial w)).
Proof.
  unfold HEASARC_get_lightcurves_forloop,
    HEASARC_get_lightcurves_forloop_from, bind.
  destruct (coords_loop _ _ _ _ (initial w)); split; reflexivity.
Qed.

Lemma initial_segment_length {A} (p full : list A) :
  initial_segment p full -> length p <= length full.
Proof. intros [q ->]. rewrite length_app. lia. Qed.

(** X9.  The fallback retriever sends its cone searches coordinate by
    coordinate and, for each coordinate, mission by mission: whatever
    the answers, the requests sent are an initial segment of that list
    of pairs, and when the call returns they are the whole list, one
    request per (coordinate, mission) pair -- also for the pairs whose
    [AttributeError] was passed over. *)
Theorem X9_fallback_one_request_per_pair (E : Env)
  (coords_list : list (value * SkyCoord)) (labels_list : list string)
  (radius : Quantity) (mission_list : list string) (w : World) :
  let r := HEASARC_get_lightcurves_forloop coords_list labels_list radius
                                           mission_list w in
  initial_segment (requests (final r))
                  (cone_requests radius mission_list coords_list)
  /\ (returned r = true ->
      requests (final r) = cone_requests radius mission_list coords_list
      /\ length (requests (final r))
         = length coords_list * length mission_list).
Proof.
  intros r. unfold r.
  destruct (forloop_final E coords_list labels_list radius mission_list w)
    as [-> ->].
  destruct (coords_loop_shape labels_list radius mission_list coords_list
              (initial w)) as (p & rows & Hp & _ & Hseg & Hret & _).
  simpl in Hp. rewrite Hp. split; [exact Hseg|].
  intros H. rewrite (Hret H). split; [reflexivity|].
  apply length_cone_requests.
Qed.

(** X10.  Every row in the store of the fallback retriever comes from
    one of its pairs: its objectid is the identifier of an entry of
    [coords_list], its band is a mission of [mission_list], and its
    label is [labels_list[objectid]] for that identifier. *)
Theorem X10_fallback_rows_come_from_pairs (E : Env)
  (coords_list : list (value * SkyCoord)) (labels_list : list string)
  (radius : Quantity) (mission_list : list string) (w : World) :
  Forall (fun row =>
            exists oc, In oc coords_list
              /\ exists mission, In mission mission_list
              /\ objectid (key row) = fst oc
              /\ band (key row) = mission
              /\ exists lab,
                   list_getitem_value labels_list (fst oc) = inr lab
                   /\ label (key row) = VStr lab)
         (df_lc (final (HEASARC_get_lightcurves_forloop
                          coords_list labels_list radius mission_list w))).
Proof.
  destruct (forloop_final E coords_list labels_list radius mission_list w)
    as [-> _].
  destruct (coords_loop_shape labels_list radius mission_list coords_list
              (initial w)) as (p & rows & _ & Hr & _ & _ & _ & HQ).
  simpl in Hr. rewrite Hr. exact HQ.
Qed.

(** X11.  The fallback retriever stores at most one row per request
    sent, and sends at most one request per (coordinate, mission) pair:
    the store never holds more rows than there are pairs. *)
Theorem X11_fallback_store_bounded (E : Env)
  (coords_list : list (value * SkyCoord)) (labels_list : list string)
  (radius : Quantity) (mission_list : list string) (w : World) :
  let s := final (HEASARC_get_lightcurves_forloop coords_list labels_list
                                                  radius mission_list w) in
  length (df_lc s) <= length (requests s)
  /\ length (requests s) <= length coords_list * length mission_list.
Proof.
  intros s. unfold s.
  destruct (forloop_final E coords_list labels_list radius mission_list w)
    as [-> _].
  destruct (coords_loop_shape labels_list radius mission_list coords_list
              (initial w)) as (p & rows & Hp & Hr & Hseg & _ & Hlen & _).
  simpl in Hp, Hr. rewrite Hp, Hr. split; [exact Hlen|].
  rewrite <- (length_cone_requests radius mission_list coords_list).
  now apply initial_segment_length.
Qed.

Lemma table_getitem_missing (t : Table) (name : string) :
  ~ In name (colnames t) -> table_getitem t name = inl KeyError.
Proof.
  intros Hn. destruct (table_getitem t name) as [e|c] eqn:H.
  - now rewrite (table_getitem_inl _ _ _ H).
  - exfalso. apply Hn. eapply table_getitem_inr_In; eassumption.
Qed.

(** X12.  In the fallback retriever an answer without rows is not the
    tolerated fault: when the time column of the answer is empty the
    pair raises [IndexError], and when the answer has no such column it
    raises [KeyError]; neither is caught by the handler, and nothing is
    appended. *)
Theorem X12_fallback_empty_answer_not_tolerated (E : Env)
  (labels_list : list string) (radius : Quantity) (oid : value)
  (coord : SkyCoord) (mcount : nat) (mission : string) (s : state)
  (results : Table) (w' : World) :
  query_region coord mission radius (world s) = Return results w' ->
  let column := (if String.eqb mission "FERMIGTRIG"
                 then "TRIGGER_TIME" else "TIME")%string in
  let s' := after_call s (ConeSearch coord mission radius) w' in
  (table_getitem results column = inr [] ->
   forloop_body labels_list radius oid coord (mcount, mission) s
   = Raise IndexError s')
  /\ (~ In column (colnames results) ->
      forloop_body labels_list radius oid coord (mcount, mission) s
      = Raise KeyError s').
Proof.
  intros Hq column s'.
  assert (Hbody : forall e,
    is_AttributeError e = false ->
    time_mjd_of results column = inl e ->
    forloop_body labels_list radius oid coord (mcount, mission) s
    = Raise e s').
  { intros e He Ht.
    unfold forloop_body, try_except_AttributeError_pass, forloop_try, bind,
      call.
    rewrite Hq; simpl.
    replace (if String.eqb mission "FERMIGTRIG"
             then time_mjd_of results "TRIGGER_TIME"
             else time_mjd_of results "TIME")
      with (time_mjd_of results column)
      by (unfold column; destruct (String.eqb mission "FERMIGTRIG");
          reflexivity).
    rewrite Ht; simpl. now rewrite He. }
  split; intros H; apply Hbody; try reflexivity; unfold time_mjd_of.
  - now rewrite H.
  - now rewrite (table_getitem_missing _ _ H).
Qed.

Lemma list_getitem_out_of_range {A} (l : list A) (i : Z) :
  (i < - Z.of_nat (length l) \/ Z.of_nat (length l) <= i)%Z ->
  list_getitem l i = inl IndexError.
Proof.
  intros Hi. unfold list_getitem.
  destruct (i <? 0)%Z eqn:Hneg.
  - apply Z.ltb_lt in Hneg.
    replace (0 <=? i + Z.of_nat (length l))%Z with false
      by (symmetry; apply Z.leb_gt; lia).
    reflexivity.
  - apply Z.ltb_ge in Hneg.
    replace (i <? Z.of_nat (length l))%Z with false
      by (symmetry; apply Z.ltb_ge; lia).
    now rewrite andb_false_r.
Qed.

Lemma list_getitem_from_end {A} (l : list A) (k : nat) (a : A) :
  nth_error l k = Some a ->
  list_getitem l (Z.of_nat k - Z.of_nat (length l)) = inr a.
Proof.
  intros Hn.
  assert (Hlt : k < length l) by (apply nth_error_Some; congruence).
  unfold list_getitem.
  replace (Z.of_nat k - Z.of_nat (length l) <? 0)%Z with true
    by (symmetry; apply Z.ltb_lt; lia).
  replace (Z.of_nat k - Z.of_nat (length l) + Z.of_nat (length l))%Z
    with (Z.of_nat k) by lia.
  replace (0 <=? Z.of_nat k)%Z with true by (symmetry; apply Z.leb_le; lia).
  replace (Z.of_nat k <? Z.of_nat (length l))%Z with true
    by (symmetry; apply Z.ltb_lt; lia).
  simpl. now rewrite Nat2Z.id, Hn.
Qed.

(** X13.  The label is looked up after the query was sent and the time
    read.  An integer identifier outside [-len(labels_list),
    len(labels_list)) makes the pair raise [IndexError], an identifier
    that is not an integer makes it raise [TypeError]; neither is
    caught, and nothing is appended. *)
Theorem X13_fallback_label_lookup_fails (E : Env)
  (labels_list : list string) (radius : Quantity) (oid : value)
  (coord : SkyCoord) (mcount : nat) (mission : string) (s : state)
  (results : Table) (w' : World) (t : float) :
  query_region coord mission radius (world s) = Return results w' ->
  (if String.eqb mission "FERMIGTRIG"
   then time_mjd_of results "TRIGGER_TIME"
   else time_mjd_of results "TIME") = inr t ->
  let s' := after_call s (ConeSearch coord mission radius) w' in
  (forall i, oid = VInt i ->
     (i < - Z.of_nat (length labels_list)
      \/ Z.of_nat (length labels_list) <= i)%Z ->
     forloop_body labels_list radius oid coord (mcount, mission) s
     = Raise IndexError s')
  /\ ((forall i, oid <> VInt i) ->
      forloop_body labels_list radius oid coord (mcount, mission) s
      = Raise TypeError s').
Proof.
  intros Hq Ht s'.
  assert (Hbody : forall e,
    is_AttributeError e = false ->
    list_getitem_value labels_list oid = inl e ->
    forloop_body labels_list radius oid coord (mcount, mission) s
    = Raise e s').
  { intros e He Hl.
    unfold forloop_body, try_except_AttributeError_pass, forloop_try, bind,
      call.
    rewrite Hq; simpl. rewrite Ht; simpl. rewrite Hl; simpl. now rewrite He. }
  split.
  - intros i -> Hi. apply Hbody; [reflexivity|].
    simpl. now apply list_getitem_out_of_range.
  - intros Hn. apply Hbody; [reflexivity|].
    destruct oid; try reflexivity. now destruct (Hn z).
Qed.

(** X14.  When the identifier of a coordinate entry is a position [k] of
    [labels_list], the record of an answered query carries the label at
    that position; the identifier [k - len(labels_list)] reaches the
    same label, counted from the end. *)
Theorem X14_fallback_label_at_position (E : Env)
  (labels_list : list string) (radius : Quantity) (oid : value)
  (coord : SkyCoord) (mcount : nat) (mission : string) (s : state)
  (results : Table) (w' : World) (t : float) (k : nat) (lab : string) :
  query_region coord mission radius (world s) = Return results w' ->
  (if String.eqb mission "FERMIGTRIG"
   then time_mjd_of results "TRIGGER_TIME"
   else time_mjd_of results "TIME") = inr t ->
  nth_error labels_list k = Some lab ->
  oid = VInt (Z.of_nat k)
  \/ oid = VInt (Z.of_nat k - Z.of_nat (length labels_list)) ->
  forloop_body labels_list radius oid coord (mcount, mission) s
  = Return tt
      {| world := w';
         df_lc := df_lc s ++ [event oid lab mission t];
         requests := requests s ++ [ConeSearch coord mission radius] |}.
Proof.
  intros Hq Ht Hk Hoid.
  apply forloop_body_success with (results := results); try assumption.
  destruct Hoid as [-> | ->]; simpl.
  - now apply list_getitem_nth.
  - now apply list_getitem_from_end.
Qed.

(** ** The packager: what its outcomes mean *)

Lemma astropy_Table_votable coords_list labels_list :
  astropy_Table (votable_columns coords_list labels_list)
  = if Nat.eqb (length coords_list) (length labels_list)
    then inr (votable_columns coords_list labels_list)
    else inl ValueError.
Proof.
  unfold astropy_Table; simpl. rewrite !length_map, Nat.eqb_refl; simpl.
  destruct (Nat.eqb (length coords_list) (length labels_list)); reflexivity.
Qed.

(** X15.  The packager returns only after the table was written: if it
    returns, the value is the destination path it was given, there were
    as many labels as coordinates, and the four-column table of the
    inputs was written to that path, which left the world as
    returned. *)
Theorem X15_make_VOTable_returns_after_write (E : Env)
  (coords_list : list (value * SkyCoord)) (labels_list : list string)
  (sourcefilename : string) (w w' : World) (path : string) :
  make_VOTable coords_list labels_list sourcefilename w = Return path w' ->
  path = sourcefilename
  /\ length labels_list = length coords_list
  /\ table_write (votable_columns coords_list labels_list) sourcefilename w
     = Return tt w'.
Proof.
  unfold make_VOTable, bind. rewrite astropy_Table_votable.
  destruct (Nat.eqb_spec (length coords_list) (length labels_list))
    as [Hlen|Hlen]; simpl; [|discriminate].
  destruct (table_write (votable_columns coords_list labels_list)
                        sourcefilename w) as [[] w1|e w1]; [|discriminate].
  intros [= <- <-]. auto.
Qed.

(** X16.  The packager raises in two ways only: [ValueError] for lists
    of different lengths, in the world it started from, or the exception
    of the write itself, in the world the write left; it handles
    neither. *)
Theorem X16_make_VOTable_failures (E : Env)
  (coords_list : list (value * SkyCoord)) (labels_list : list string)
  (sourcefilename : string) (w w' : World) (e : exn) :
  make_VOTable coords_list labels_list sourcefilename w = Raise e w' <->
  (length labels_list <> length coords_list /\ e = ValueError /\ w' = w)
  \/ (length labels_list = length coords_list
      /\ table_write (votable_columns coords_list labels_list)
                     sourcefilename w = Raise e w').
Proof.
  unfold make_VOTable, bind. rewrite astropy_Table_votable.
  destruct (Nat.eqb_spec (length coords_list) (length labels_list))
    as [Hlen|Hlen]; simpl.
  - destruct (table_write (votable_columns coords_list labels_list)
                          sourcefilename w) as [[] w1|e1 w1]; split.
    + discriminate.
    + intros [(Hn & _)|(_ & H)]; [congruence | discriminate].
    + intros [= <- <-]. right. auto.
    + intros [(Hn & _)|(_ & H)]; [congruence | now injection H as <- <-].
  - split.
    + intros [= <- <-]. left. auto.
    + intros [(_ & -> & ->)|(Heq & _)]; [reflexivity | congruence].
Qed.

(** ** The error-radius profiler *)



(** X18.  When the answer of the archive has no column [error_radius],
    the profiler raises [KeyError] in the world the query left: no
    histogram is drawn and no table is returned. *)
Theorem X18_make_hist_missing_column (E : Env) (P : PlotEnv E)
  (missioncat : string) (w w1 w2 : World) (h : TapService)
  (hs : list TapService) (t : Table) :
  regsearch w = Return (h :: hs) w1 ->
  run_sync_query h (heasarcquery missioncat) w1 = Return t w2 ->
  ~ In "error_radius"%string (colnames t) ->
  make_hist_error_radii missioncat w = Raise KeyError w2.
Proof.
  intros Hr Hq Hc. unfold make_hist_error_radii, bind.
  rewrite Hr, list_getitem_head; simpl. rewrite Hq.
  now rewrite (table_getitem_missing _ _ Hc).
Qed.

(** ** Runs without a single match, and unused thresholds *)

Lemma for_each_returns (E : Env) {A} (body : A -> M state unit) :
  (forall a s, exists s', body a s = Return tt s' /\ df_lc s' = df_lc s) ->
  forall l s, exists s',
    for_each body l s = Return tt s' /\ df_lc s' = df_lc s.
Proof.
  intros Hbody. induction l as [|a l IH]; intros s; simpl.
  - exists s. split; reflexivity.
  - destruct (Hbody a s) as (s1 & H1 & E1).
    destruct (IH s1) as (s2 & H2 & E2).
    exists s2. unfold bind. rewrite H1. split; [exact H2 | congruence].
Qed.

(** X19.  When the archive has nothing for any pair, so that every cone
    search raises [AttributeError], the fallback retriever still returns:
    the store it returns is empty, and every (coordinate, mission) pair
    has been queried. *)
Theorem X19_fallback_no_match_anywhere (E : Env)
  (coords_list : list (value * SkyCoord)) (labels_list : list string)
  (radius : Quantity) (mission_list : list string) (w : World) :
  (forall coord mission w0, exists w1,
      query_region coord mission radius w0 = Raise AttributeError w1) ->
  exists s,
    HEASARC_get_lightcurves_forloop coords_list labels_list radius
                                    mission_list w = Return [] s
    /\ requests s = cone_requests radius mission_list coords_list.
Proof.
  intros Habsent.
  assert (Hloop : exists s,
    coords_loop labels_list radius mission_list coords_list (initial w)
    = Return tt s /\ df_lc s = df_lc (initial w)).
  { unfold coords_loop. apply for_each_returns. intros [oid coord] s.
    simpl fst; simpl snd. unfold mission_loop. apply for_each_returns. intros [mcount mission] s0.
    destruct (Habsent coord mission (world s0)) as (w1 & Hq).
    unfold forloop_body, try_except_AttributeError_pass, forloop_try, bind,
      call.
    rewrite Hq; simpl. eexists. split; reflexivity. }
  destruct Hloop as (s & Hrun & Hstore).
  pose proof (X9_fallback_one_request_per_pair E coords_list labels_list
                radius mission_list w) as Hreq.
  cbv zeta in Hreq.
  unfold HEASARC_get_lightcurves_forloop,
    HEASARC_get_lightcurves_forloop_from, bind in *.
  rewrite Hrun in *. simpl in Hreq, Hstore.
  exists s. split; [now rewrite Hstore|].
  destruct Hreq as (_ & Hret). now destruct (Hret eq_refl).
Qed.

Lemma list_getitem_firstn {A} (l : list A) (n m : nat) :
  m < n -> n <= length l ->
  list_getitem (firstn n l) (Z.of_nat m) = list_getitem l (Z.of_nat m).
Proof.
  intros Hm Hn.
  destruct (nth_error l m) as [a|] eqn:Ha.
  - rewrite (list_getitem_nth l m a Ha).
    apply list_getitem_nth. rewrite nth_error_firstn.
    now replace (m <? n) with true by (symmetry; apply Nat.ltb_lt; lia).
  - apply nth_error_None in Ha. lia.
Qed.

Lemma for_each_ext_in {S A} (f g : A -> M S unit) l :
  (forall a, In a l -> forall s, f a s = g a s) ->
  forall s, for_each f l s = for_each g l s.
Proof.
  induction l as [|a l IH]; intros Hfg s; simpl; [reflexivity|].
  unfold bind. rewrite (Hfg a (or_introl eq_refl)).
  destruct (g a s); [|reflexivity].
  apply IH. intros b Hb. apply Hfg. now right.
Qed.

(** X20.  Thresholds beyond the number of catalogs are never read: with
    at least as many thresholds as catalogs, the bulk retriever behaves
    exactly as with the list of thresholds cut to the number of
    catalogs. *)
Theorem X20_bulk_extra_thresholds_ignored (E : Env)
  (heasarc_cat : list string) (max_error_radius : list float)
  (xml_filename : string) (w : World) :
  length heasarc_cat <= length max_error_radius ->
  HEASARC_get_lightcurves heasarc_cat max_error_radius xml_filename w
  = HEASARC_get_lightcurves heasarc_cat
      (firstn (length heasarc_cat) max_error_radius) xml_filename w.
Proof.
  intros Hlen.
  unfold HEASARC_get_lightcurves, HEASARC_get_lightcurves_from, bind.
  destruct (call RegistrySearch regsearch (initial w)) as [sv s1|e s1];
    [|reflexivity].
  destruct (lift (list_getitem sv 0) s1) as [h s2|e s2]; [|reflexivity].
  unfold bulk_loop, range.
  rewrite (for_each_ext_in
             (bulk_body heasarc_cat max_error_radius xml_filename h)
             (bulk_body heasarc_cat
                        (firstn (length heasarc_cat) max_error_radius)
                        xml_filename h)); [reflexivity|].
  intros m Hm s. apply in_seq in Hm. unfold bulk_body.
  now rewrite list_getitem_firstn by lia.
Qed.

(** ** The further properties at concrete inputs *)

Lemma steady_registry_answers : @registry_answers Demo.steady.
Proof. intros w. exists tt, [], w. reflexivity. Defined.

Lemma steady_archive_answers : @archive_answers Demo.steady.
Proof.
  intros h q f w. eexists; eexists; eexists. split; reflexivity.
Defined.

Lemma X2_witness :
  let r := @HEASARC_get_lightcurves Demo.steady Demo.catalogs Demo.thresholds
             "sources.xml" tt in
  length Demo.catalogs <= length Demo.thresholds
  /\ length (@tap_queries Demo.steady (@requests Demo.steady (final r))) = 2.
Proof.
  intros r.
  destruct (X2_bulk_returns_after_all_queries Demo.steady Demo.catalogs
              Demo.thresholds "sources.xml" tt
              (@df_lc Demo.steady (final r)) (final r) eq_refl)
    as (Hle & _ & Hn & _).
  split; [exact Hle | exact Hn].
Defined.

Lemma X3_witness :
  exists s,
    @HEASARC_get_lightcurves Demo.steady Demo.catalogs [1%float]
      "sources.xml" tt = Raise IndexError s
    /\ length (@tap_queries Demo.steady (@requests Demo.steady s)) = 1.
Proof.
  destruct (X3_bulk_too_few_thresholds Demo.steady Demo.catalogs [1%float]
              "sources.xml" tt steady_registry_answers steady_archive_answers)
    as (s & Hrun & _ & Hn).
  - simpl; lia.
  - exists s. split; [exact Hrun | exact Hn].
Defined.

Lemma X5_witness :
  let s := @initial Demo.scripted
             (Demo.with_tap [inr (Demo.one_match 55000.5)]) in
  exists df,
    @df_lc Demo.scripted
      (final (@bulk_body Demo.scripted Demo.catalogs Demo.thresholds
                "sources.xml" tt 0 s)) = df
    /\ map (fun r => time (key r)) df = [VFloat 55000.5]
    /\ map (fun r => objectid (key r)) df = [VInt 0]
    /\ map (fun r => label (key r)) df = [VStr "paper"].
Proof.
  intros s.
  destruct (X5_bulk_rows_follow_answer Demo.scripted Demo.catalogs
              Demo.thresholds "sources.xml" tt 0 s "FERMIGTRIG" 1
              (Demo.one_match 55000.5) Demo.blank
              [VFloat 55000.5] [VInt 0] [VStr "paper"]
              eq_refl eq_refl eq_refl eq_refl eq_refl eq_refl eq_refl
              eq_refl eq_refl)
    as (df & Hbody & _ & Ht & Ho & Hl).
  exists df. rewrite Hbody. simpl. repeat split; assumption.
Defined.

Lemma X6_witness :
  let s := @initial Demo.scripted
             (Demo.with_tap [inr DemoPlot.no_radius]) in
  @bulk_body Demo.scripted Demo.catalogs Demo.thresholds "sources.xml" tt 0 s
  = Raise KeyError
      (@after_call Demo.scripted s
         (@crossmatch Demo.scripted "sources.xml" ("FERMIGTRIG"%string, 1%float))
         Demo.blank).
Proof.
  intros s.
  apply (X6_bulk_missing_column_KeyError Demo.scripted Demo.catalogs
           Demo.thresholds "sources.xml" tt 0 s "FERMIGTRIG" 1
           DemoPlot.no_radius Demo.blank eq_refl eq_refl eq_refl).
  simpl. intros (H & _). intuition discriminate.
Defined.

Lemma X7_witness :
  let s := @initial Demo.scripted (Demo.with_tap [inl AttributeError]) in
  @bulk_loop Demo.scripted Demo.catalogs Demo.thresholds "sources.xml" tt
    [0; 1] s
  = Raise AttributeError
      (@after_call Demo.scripted s
         (@crossmatch Demo.scripted "sources.xml" ("FERMIGTRIG"%string, 1%float))
         Demo.blank).
Proof.
  intros s.
  exact (X7_bulk_fault_aborts Demo.scripted Demo.catalogs Demo.thresholds
           "sources.xml" tt 0 [1] s "FERMIGTRIG" 1 AttributeError Demo.blank
           eq_refl eq_refl eq_refl).
Defined.

Lemma X8_witness :
  @HEASARC_get_lightcurves DemoRegistry.empty Demo.catalogs Demo.thresholds
    "sources.xml" tt
  = Raise IndexError
      (@Build_state DemoRegistry.empty tt [] [@RegistrySearch DemoRegistry.empty]).
Proof.
  exact (proj1 (X8_bulk_registry_failure DemoRegistry.empty Demo.catalogs
                  Demo.thresholds "sources.xml" tt tt) eq_refl).
Defined.

Lemma X9_witness :
  let r := @HEASARC_get_lightcurves_forloop Demo.scripted Demo.in_order
             Demo.labels tt Demo.missions
             (Demo.fifth_raises AttributeError) in
  length (@requests Demo.scripted (final r)) = 6
  /\ length (@df_lc Demo.scripted (final r)) = 5.
Proof.
  intros r.
  destruct (X9_fallback_one_request_per_pair Demo.scripted Demo.in_order
              Demo.labels tt Demo.missions
              (Demo.fifth_raises AttributeError)) as (_ & Hret).
  destruct (Hret eq_refl) as (_ & Hn).
  split; [exact Hn | reflexivity].
Defined.

Lemma X12_witness :
  let run t :=
    @forloop_body Demo.scripted Demo.labels tt (VInt 0) Demo.origin
      (0, "SAXGRBMGRB"%string)
      (@initial Demo.scripted (Demo.with_cone [inr t])) in
  (exists s, run [("TIME"%string, [])] = Raise IndexError s)
  /\ (exists s, run Demo.no_match = Raise KeyError s).
Proof.
  intros run. split; eexists.
  - apply (proj1 (X12_fallback_empty_answer_not_tolerated Demo.scripted
                    Demo.labels tt (VInt 0) Demo.origin 0 "SAXGRBMGRB"
                    (@initial Demo.scripted
                       (Demo.with_cone [inr [("TIME"%string, [])]]))
                    [("TIME"%string, [])] Demo.blank eq_refl)).
    reflexivity.
  - apply (proj2 (X12_fallback_empty_answer_not_tolerated Demo.scripted
                    Demo.labels tt (VInt 0) Demo.origin 0 "SAXGRBMGRB"
                    (@initial Demo.scripted
                       (Demo.with_cone [inr Demo.no_match]))
                    Demo.no_match Demo.blank eq_refl)).
    simpl. intuition discriminate.
Defined.

Lemma X13_witness :
  let run oid :=
    @forloop_body Demo.scripted Demo.labels tt oid Demo.origin
      (0, "SAXGRBMGRB"%string)
      (@initial Demo.scripted (Demo.with_cone [inr Demo.two_rows])) in
  (exists s, run (VInt 2) = Raise IndexError s)
  /\ (exists s, run (VStr "J1234") = Raise TypeError s).
Proof.
  intros run. split; eexists.
  - apply (proj1 (X13_fallback_label_lookup_fails Demo.scripted
                    Demo.labels tt (VInt 2) Demo.origin 0 "SAXGRBMGRB"
                    (@initial Demo.scripted
                       (Demo.with_cone [inr Demo.two_rows]))
                    Demo.two_rows Demo.blank 50123.75 eq_refl eq_refl)
             2%Z eq_refl).
    simpl; lia.
  - apply (proj2 (X13_fallback_label_lookup_fails Demo.scripted
                    Demo.labels tt (VStr "J1234") Demo.origin 0 "SAXGRBMGRB"
                    (@initial Demo.scripted
                       (Demo.with_cone [inr Demo.two_rows]))
                    Demo.two_rows Demo.blank 50123.75 eq_refl eq_refl)).
    intros i; discriminate.
Defined.

Lemma X14_witness :
  let run oid :=
    @df_lc Demo.scripted
      (final (@forloop_body Demo.scripted Demo.labels tt oid Demo.origin
                (0, "SAXGRBMGRB"%string)
                (@initial Demo.scripted
                   (Demo.with_cone [inr Demo.two_rows])))) in
  run (VInt 1) = [event (VInt 1) "b" "SAXGRBMGRB" 50123.75]
  /\ run (VInt (-1)) = [event (VInt (-1)) "b" "SAXGRBMGRB" 50123.75].
Proof.
  intros run. unfold run. split.
  - rewrite (X14_fallback_label_at_position Demo.scripted Demo.labels tt
               (VInt 1) Demo.origin 0 "SAXGRBMGRB"
               (@initial Demo.scripted (Demo.with_cone [inr Demo.two_rows]))
               Demo.two_rows Demo.blank
               50123.75 1 "b" eq_refl eq_refl eq_refl (or_introl eq_refl)).
    reflexivity.
  - rewrite (X14_fallback_label_at_position Demo.scripted Demo.labels tt
               (VInt (-1)) Demo.origin 0 "SAXGRBMGRB"
               (@initial Demo.scripted (Demo.with_cone [inr Demo.two_rows]))
               Demo.two_rows Demo.blank 50123.75 1 "b" eq_refl eq_refl eq_refl
               (or_intror eq_refl)).
    reflexivity.
Defined.

Lemma X15_witness :
  length Demo.labels = length Demo.in_order
  /\ Demo.file_write (votable_columns Demo.in_order Demo.labels)
       "sources.xml" Demo.blank
     = Return tt
         (final (@make_VOTable Demo.scripted Demo.in_order Demo.labels
                   "sources.xml" Demo.blank)).
Proof.
  destruct (X15_make_VOTable_returns_after_write Demo.scripted Demo.in_order
              Demo.labels "sources.xml" Demo.blank
              (final (@make_VOTable Demo.scripted Demo.in_order Demo.labels
                        "sources.xml" Demo.blank))
              "sources.xml" eq_refl) as (_ & Hlen & Hw).
  split; [exact Hlen | exact Hw].
Defined.

Lemma X16_witness :
  (length ["a"%string] <> length Demo.in_order
   /\ ValueError = ValueError /\ Demo.blank = Demo.blank)
  \/ (length ["a"%string] = length Demo.in_order
      /\ Demo.file_write (votable_columns Demo.in_order ["a"%string])
           "sources.xml" Demo.blank = Raise ValueError Demo.blank).
Proof.
  exact (proj1 (X16_make_VOTable_failures Demo.scripted Demo.in_order
                  ["a"%string] "sources.xml" Demo.blank Demo.blank ValueError)
               eq_refl).
Defined.


Lemma X18_witness :
  @make_hist_error_radii Demo.scripted DemoPlot.scripted "FERMIGTRIG"
    (Demo.with_tap [inr DemoPlot.no_radius])
  = Raise KeyError Demo.blank.
Proof.
  apply (X18_make_hist_missing_column Demo.scripted DemoPlot.scripted
           "FERMIGTRIG" (Demo.with_tap [inr DemoPlot.no_radius])
           (Demo.with_tap [inr DemoPlot.no_radius]) Demo.blank tt []
           DemoPlot.no_radius eq_refl eq_refl).
  simpl. intuition discriminate.
Defined.

Lemma X19_witness :
  exists s,
    @HEASARC_get_lightcurves_forloop DemoRegistry.absent Demo.in_order
      Demo.labels tt Demo.missions tt = Return [] s
    /\ length (@requests DemoRegistry.absent s) = 6.
Proof.
  destruct (X19_fallback_no_match_anywhere DemoRegistry.absent Demo.in_order
              Demo.labels tt Demo.missions tt) as (s & Hrun & Hreq).
  - intros coord mission w0. exists w0. reflexivity.
  - exists s. split; [exact Hrun|]. rewrite Hreq. reflexivity.
Defined.

Lemma X20_witness :
  @HEASARC_get_lightcurves Demo.steady Demo.catalogs
    [1%float; 3%float; 0.5%float] "sources.xml" tt
  = @HEASARC_get_lightcurves Demo.steady Demo.catalogs Demo.thresholds
      "sources.xml" tt.
Proof.
  apply (X20_bulk_extra_thresholds_ignored Demo.steady Demo.catalogs
           [1%float; 3%float; 0.5%float] "sources.xml" tt).
  simpl; lia.
Defined.

Lemma X1_witness :
  exists s,
    @HEASARC_get_lightcurves Demo.scripted
      ["FERMIGTRIG"%string; "SAXGRBMGRB"%string; "INTGRBCAT"%string]
      [1%float; 3%float; 0.5%float] "sources.xml"
      (Demo.with_tap [inr (Demo.one_match 55000.5);
                      inl (OtherError "DALServiceError");
                      inr (Demo.one_match 50123.75)])
    = Raise (OtherError "DALServiceError") s
    /\ length (@tap_queries Demo.scripted (@requests Demo.scripted s)) = 2
    /\ Demo.tap_answers (@world Demo.scripted s)
       = [inr (Demo.one_match 50123.75)].
Proof.
  destruct (X1_bulk_requests_initial_segment Demo.scripted
              ["FERMIGTRIG"%string; "SAXGRBMGRB"%string; "INTGRBCAT"%string]
              [1%float; 3%float; 0.5%float] "sources.xml"
              (Demo.with_tap [inr (Demo.one_match 55000.5);
                              inl (OtherError "DALServiceError");
                              inr (Demo.one_match 50123.75)]))
    as (_ & Hstop).
  destruct (Hstop tt []
              (Demo.with_tap [inr (Demo.one_match 55000.5);
                              inl (OtherError "DALServiceError");
                              inr (Demo.one_match 50123.75)])
              1 [Demo.one_match 55000.5]
              (Demo.with_tap [inl (OtherError "DALServiceError");
                              inr (Demo.one_match 50123.75)])
              "SAXGRBMGRB"%string 3%float (OtherError "DALServiceError")
              (Demo.with_tap [inr (Demo.one_match 50123.75)])
              eq_refl eq_refl)
    as (s & Hrun & Hw & Hreq).
  - constructor; [eexists; reflexivity | constructor].
  - reflexivity.
  - reflexivity.
  - exists s. split; [exact Hrun|]. split.
    + rewrite Hreq. reflexivity.
    + rewrite Hw. reflexivity.
Defined.
